(** * StyleStash: the wardrobe-tracking backend of [server.js]

    A shallow embedding of the Express application in [server.js]: the
    Mongoose schemas and the collections behind them, the [auth] gate, the
    five API routes and the front-end fallback.

    The handlers are [async] functions that thread the database and may throw;
    they are written here in a small state-and-exception monad [M].  What the
    program takes from outside itself is kept outside the embedding:

    - the npm libraries it calls ([jsonwebtoken], [bcryptjs]) and the
      JavaScript built-ins it uses ([JSON.parse], [Number], the text of an
      error's [message]) are operations of the classes [Jwt], [Bcrypt] and
      [Runtime];
    - what varies from one request to the next (the clock, the entropy of
      [bcrypt.genSalt], the [ObjectId] Mongoose generates, whether a store call
      is rejected, what the media host answers) is read from an [env].

    A field of a request body is a string or is absent, as the forms of the
    front end send it; [req.body] itself is an object when [express.json] or
    Multer parsed a body, and [undefined] when neither did (under Express 5;
    Express 4 starts every request with an empty object).  Requests that
    [express.static] answers from [public], and bodies that [express.json]
    refuses, never reach a route and are not part of the embedding.

    A second source file of the repository declares another [User] schema
    (with a [date] path where this one has [location]) and exports its model;
    [server.js] never requires it and declares its own, which is the one
    embedded here. *)

From Stdlib Require Import Ascii String List ZArith QArith Bool Lia.
Import ListNotations.

Local Open Scope string_scope.
Local Open Scope list_scope.
Local Open Scope Z_scope.

(** ** JavaScript values the handlers touch *)

(** A field read off [req.body] or a header read with [req.header] is a string
    or [undefined]. *)
Definition jsfield := option string.

(** [!x] is [negb (truthy x)]: [undefined] and the empty string are falsy. *)
Definition truthy (x : jsfield) : bool :=
  match x with
  | None => false
  | Some s => negb (s =? "")%string
  end.

(** The string held by a field known to be truthy. *)
Definition value (x : jsfield) : string :=
  match x with
  | Some s => s
  | None => ""
  end.

(** [req.body] as an object: the first binding of a key is its property. *)
Definition jsobject := list (string * string).

Fixpoint prop (k : string) (o : jsobject) : jsfield :=
  match o with
  | [] => None
  | (k', v) :: o' => if (k =? k')%string then Some v else prop k o'
  end.

(** The result of [JSON.parse]; a number keeps its literal. *)
#[local] Unset Elimination Schemes.
Inductive json :=
| JNull
| JBool (b : bool)
| JNumber (literal : string)
| JString (s : string)
| JArray (elements : list json)
| JObject (members : list (string * json)).
#[local] Set Elimination Schemes.

(** A JavaScript number as far as the [warmth] path needs it. *)
Inductive jsnum :=
| NaN
| Finite (q : Q)
| Infinite (negative : bool).

(** What a handler can throw, or a promise reject with. *)
Inductive js_error :=
| TypeError (property : string)
    (* reading [property] of [undefined] or [null] *)
| CannotDestructure (property : string)
    (* the [TypeError] of destructuring [undefined]: [property] is the first
       one named in the pattern *)
| SyntaxError (detail : string)
    (* [JSON.parse] *)
| IllegalArguments
    (* [bcrypt.compare] given something that is not a string *)
| ValidationError (model : string) (paths : list string)
    (* Mongoose validation at [save] *)
| DuplicateKey (path : string) (key : string)
    (* the unique index of a collection *)
| StoreError (detail : string)
    (* any other rejection of a store call *)
| UploadError (detail : string).
    (* the media host *)

(** ** Documents *)

Definition ObjectId := string.

(** [UserSchema] *)
Record User := mkUser {
  user_id : ObjectId;
  firstName : string;
  lastName : string;
  email : string;
  password : string;
  location : string
}.

(** [ItemSchema] *)
Record Item := mkItem {
  item_id : ObjectId;
  userId : ObjectId;
  name : string;
  imageUrl : string;
  category : string;
  subCategory : jsfield;
  seasons : list string;
  color : jsfield;
  warmth : jsnum;
  isClean : bool;
  lastWorn : option Z;
  createdAt : Z
}.

Record database := mkDb {
  users : list User;
  items : list Item
}.

(** ** Libraries and built-ins *)

(** The decoded payload of a token: [{ id, iat, exp }]. *)
Record claim := mkClaim {
  id : ObjectId;
  iat : Z;
  exp : Z
}.

(** [jsonwebtoken].  [jwt_sign i key t ttl] is
    [jwt.sign({ id: i }, key, { expiresIn: ttl })] called when the clock shows
    [t] seconds; [jwt_verify tok key t] is [jwt.verify(tok, key)] at [t], with
    [None] for every way it throws. *)
Class Jwt := {
  jwt_sign : ObjectId -> string -> Z -> Z -> string;
  jwt_verify : string -> string -> Z -> option claim
}.

(** [bcryptjs].  [bcrypt_genSalt rounds entropy] is [bcrypt.genSalt(rounds)]
    drawing [entropy] from the random source. *)
Class Bcrypt := {
  bcrypt_genSalt : nat -> string -> string;
  bcrypt_hash : string -> string -> string;
  bcrypt_compare : string -> string -> bool
}.

(** Built-ins of the language and of Mongoose's casting. *)
Class Runtime := {
  JSON_parse : string -> string + json;
    (* [inl detail]: a [SyntaxError] *)
  StringToNumber : string -> jsnum;
    (* [Number(s)] for a string [s] *)
  cast_string_array : json -> option (list string);
    (* Mongoose casting a value to the type [[String]]; [None]: a cast error *)
  message : js_error -> string
    (* [err.message] *)
}.

(** [Number(x)]: [Number(undefined)] is [NaN]. *)
Definition Number_ `{Runtime} (x : jsfield) : jsnum :=
  match x with
  | None => NaN
  | Some s => StringToNumber s
  end.

(** ** The environment of one request *)

Record env := mkEnv {
  clock_ms : Z;
    (* [Date.now()] *)
  salt_entropy : string;
    (* what [bcrypt.genSalt] draws *)
  fresh_oid : ObjectId;
    (* the [_id] Mongoose gives a new document *)
  store_faults : list (option string);
    (* the k-th store call of the request is rejected with this detail *)
  media_host : string -> string + string
    (* the upload of an image: [inl detail] on failure, [inr url] *)
}.

(** The clock as [jsonwebtoken] reads it: [Math.floor(Date.now() / 1000)]. *)
Definition clock_s (e : env) : Z := clock_ms e / 1000.

(** [process.env] *)
Record config := mkConfig {
  JWT_SECRET : string
}.

(** ** The monad of the handlers *)

(** Store calls, in the order they are awaited. *)
Inductive store_call :=
| User_findOne_call (q : jsfield)
| User_findById_call (i : ObjectId)
| User_save_call (u : User)
| Item_countDocuments_call (owner : ObjectId) (dirty_only : bool)
| Item_save_call (owner : ObjectId)
| Item_find_call (owner : ObjectId).

Record mstate := mkState {
  db : database;
  trace : list store_call;
  faults : list (option string)
}.

Inductive result (A : Type) :=
| Ok (a : A)
| Throw (e : js_error).
Arguments Ok {A} a.
Arguments Throw {A} e.

Definition M (A : Type) : Type := mstate -> result A * mstate.

Definition ret {A} (a : A) : M A := fun s => (Ok a, s).

Definition throw {A} (e : js_error) : M A := fun s => (Throw e, s).

Definition bind {A B} (m : M A) (k : A -> M B) : M B :=
  fun s =>
    match m s with
    | (Ok a, s') => k a s'
    | (Throw e, s') => (Throw e, s')
    end.

(** [try { body } catch (err) { handler }] *)
Definition try_catch {A} (body : M A) (handler : js_error -> M A) : M A :=
  fun s =>
    match body s with
    | (Ok a, s') => (Ok a, s')
    | (Throw e, s') => handler e s'
    end.

Declare Scope monad_scope.
Delimit Scope monad_scope with monad.
Notation "x <- m ;; k" := (bind m (fun x => k))
  (at level 61, m at next level, right associativity) : monad_scope.
Local Open Scope monad_scope.

(** An awaited call on a Mongoose model.  The call is recorded; it is rejected
    when the environment says so, and otherwise runs [op] on the database. *)
Definition await_store {A} (c : store_call)
    (op : database -> result A * database) : M A :=
  fun s =>
    let tr := trace s ++ [c] in
    match faults s with
    | Some detail :: rest => (Throw (StoreError detail), mkState (db s) tr rest)
    | None :: rest => let (r, d) := op (db s) in (r, mkState d tr rest)
    | [] => let (r, d) := op (db s) in (r, mkState d tr [])
    end.

(** ** The collections *)

(** [User.findOne({ email })].  With [email] undefined the filter goes to the
    store as [{ email: null }], which no user matches: every stored user has
    an address. *)
Definition User_findOne (q : jsfield) : M (option User) :=
  await_store (User_findOne_call q) (fun d =>
    match q with
    | None => (Ok None, d)
    | Some e => (Ok (find (fun u => (email u =? e)%string) (users d)), d)
    end).

(** [User.findById(id).select("firstName lastName")] *)
Definition User_findById (i : ObjectId) : M (option User) :=
  await_store (User_findById_call i) (fun d =>
    (Ok (find (fun u => (user_id u =? i)%string) (users d)), d)).

(** The paths of [UserSchema] that fail validation: every path is a required
    string, and a required string may not be empty. *)
Definition User_invalid_paths (u : User) : list string :=
  (if (firstName u =? "")%string then ["firstName"] else []) ++
  (if (lastName u =? "")%string then ["lastName"] else []) ++
  (if (email u =? "")%string then ["email"] else []) ++
  (if (password u =? "")%string then ["password"] else []).

(** [user.save()] on a new document: validation, then the insertion, which the
    unique index on [email] refuses for an address already stored.  As for
    [Item_save] below, a rejection by the store is reported first. *)
Definition User_save (u : User) : M User :=
  await_store (User_save_call u) (fun d =>
    match User_invalid_paths u with
    | _ :: _ as paths => (Throw (ValidationError "User" paths), d)
    | [] =>
        if existsb (fun u' => (email u' =? email u)%string) (users d)
        then (Throw (DuplicateKey "email" (email u)), d)
        else (Ok u, mkDb (users d ++ [u]) (items d))
    end).

Definition owned_by (i : ObjectId) (it : Item) : bool :=
  (userId it =? i)%string.

Definition dirty (it : Item) : bool := negb (isClean it).

(** [Item.countDocuments({ userId })] *)
Definition Item_countDocuments (i : ObjectId) : M nat :=
  await_store (Item_countDocuments_call i false) (fun d =>
    (Ok (length (filter (owned_by i) (items d))), d)).

(** [Item.countDocuments({ userId, isClean: false })] *)
Definition Item_countDocuments_dirty (i : ObjectId) : M nat :=
  await_store (Item_countDocuments_call i true) (fun d =>
    (Ok (length (filter (fun it => owned_by i it && dirty it) (items d))), d)).

(** [Item.find({ userId })] *)
Definition Item_find (i : ObjectId) : M (list Item) :=
  await_store (Item_find_call i) (fun d =>
    (Ok (filter (owned_by i) (items d)), d)).

(** What [new Item({ ... })] is given, before casting and validation. *)
Record Item_fields := mkItemFields {
  f_userId : ObjectId;
  f_name : jsfield;
  f_imageUrl : string;
  f_category : jsfield;
  f_subCategory : jsfield;
  f_seasons : json;
  f_color : jsfield;
  f_warmth : jsnum
}.

(** [warmth: { type: Number, min: 1, max: 10 }]: [NaN] does not cast to a
    number; a number must lie between the bounds. *)
Definition warmth_valid (w : jsnum) : bool :=
  match w with
  | NaN => false
  | Finite q => Qle_bool 1 q && Qle_bool q 10
  | Infinite _ => false
  end.

Section Collections.
Context `{Runtime}.

(** The paths of [ItemSchema] that fail casting or validation, in the order
    of the schema: [name], [imageUrl] and [category] are required strings. *)
Definition Item_invalid_paths (f : Item_fields) : list string :=
  (if truthy (f_name f) then [] else ["name"]) ++
  (if (f_imageUrl f =? "")%string then ["imageUrl"] else []) ++
  (if truthy (f_category f) then [] else ["category"]) ++
  (match cast_string_array (f_seasons f) with
   | Some _ => []
   | None => ["seasons"]
   end) ++
  (if warmth_valid (f_warmth f) then [] else ["warmth"]).

(** The document [new Item(f)] stands for once it validates: the defaults of
    the schema fill [isClean], [lastWorn] and [createdAt]. *)
Definition Item_document (e : env) (f : Item_fields) (ss : list string)
    : Item :=
  {| item_id := fresh_oid e;
     userId := f_userId f;
     name := value (f_name f);
     imageUrl := f_imageUrl f;
     category := value (f_category f);
     subCategory := f_subCategory f;
     seasons := ss;
     color := f_color f;
     warmth := f_warmth f;
     isClean := true;
     lastWorn := None;
     createdAt := clock_ms e |}.

(** [item.save()] on a new document.  A rejection by the store is reported
    before a validation failure (Mongoose validates first); the two differ
    only for a document that is invalid while the store is down. *)
Definition Item_save (e : env) (f : Item_fields) : M Item :=
  await_store (Item_save_call (f_userId f)) (fun d =>
    match Item_invalid_paths f, cast_string_array (f_seasons f) with
    | [], Some ss =>
        let it := Item_document e f ss in
        (Ok it, mkDb (users d) (items d ++ [it]))
    | paths, _ => (Throw (ValidationError "Item" paths), d)
    end).

End Collections.

(** ** Requests and responses *)

Inductive route :=
| POST_api_auth_register
| POST_api_auth_login
| GET_api_dashboard_stats
| POST_api_items
| GET_api_items
| GET_any (path : string)
    (* any other GET: the fallback route [/.*/] *)
| Unrouted.
    (* anything else: no route of the application matches *)

(** A request as it arrives. *)
Record http_request := Http {
  target : route;
  x_auth_token : jsfield;
    (* [req.header("x-auth-token")] *)
  payload : option jsobject;
    (* [req.body]: the JSON object or the text fields of a multipart form;
       [None] when no body was parsed and [req.body] is [undefined] *)
  image : option string
    (* the file part named [image] of a multipart form *)
}.

(** A request whose body was parsed as the object [o]. *)
Definition mkHttp (t : route) (tok : jsfield) (o : jsobject)
    (img : option string) : http_request :=
  Http t tok (Some o) img.

(** The properties a request has in its body: none without a body. *)
Definition body (h : http_request) : jsobject :=
  match payload h with
  | Some o => o
  | None => []
  end.

(** The request once Multer has read its multipart form: [req.body] is an
    object, empty when the form has no text field. *)
Definition multipart_parsed (h : http_request) : http_request :=
  Http (target h) (x_auth_token h) (Some (body h)) (image h).

(** The request object the middleware pass along: [req.user] and [req.file] are
    [undefined] until a middleware sets them. *)
Record req := mkReq {
  http : http_request;
  user : option claim;
  file : option string
    (* [req.file.path] *)
}.

Definition incoming (h : http_request) : req := mkReq h None None.

Definition header_x_auth_token (r : req) : jsfield := x_auth_token (http r).

(** [const { p, ... } = req.body]: the object whose properties are read;
    destructuring [undefined] throws at the first property [p]. *)
Definition req_body (p : string) (r : req) : M jsobject :=
  match payload (http r) with
  | Some o => ret o
  | None => throw (CannotDestructure p)
  end.

(** What [res.json] or [res.sendFile] is given. *)
Inductive content :=
| Msg (msg : string)
    (* [{ msg }] *)
| Error (error : string)
    (* [{ error }] *)
| Token (token : string)
    (* [{ token }] *)
| Stats (name : string) (totalItems dirtyItems : nat) (isNewUser : bool)
| OneItem (it : Item)
| Items (its : list Item)
| File (path : string)
| NotFound
    (* Express answering a request no route matched *)
| ErrorPage (e : js_error).
    (* Express's own error handler, reached through [next(err)] *)

Record response := mkResponse {
  status : Z;
  sent : content
}.

(** [res.status(code).json(c)] *)
Definition res_status_json (code : Z) (c : content) : M response :=
  ret (mkResponse code c).

(** [res.json(c)] *)
Definition res_json (c : content) : M response := res_status_json 200 c.

(** [req.user.id]; reading [id] of [undefined] throws. *)
Definition req_user_id (r : req) : M ObjectId :=
  match user r with
  | Some c => ret (id c)
  | None => throw (TypeError "id")
  end.

(** [req.file.path]; reading [path] of [undefined] throws. *)
Definition req_file_path (r : req) : M string :=
  match file r with
  | Some p => ret p
  | None => throw (TypeError "path")
  end.

(** What becomes of one request in the handlers of the application: a
    response sent, or the promise of an [async] handler rejected with nothing
    sent by the handler (Express 4 then leaves the request unanswered;
    Express 5 hands the error to its own error handling, which answers
    500). *)
Inductive outcome :=
| Responded (resp : response)
| Unhandled (e : js_error).

Record served := mkServed {
  result_of : outcome;
  db_after : database;
  calls : list store_call
}.

(** Running a handler on the database [d] with the faults of [e]. *)
Definition run (e : env) (m : M response) (d : database) : served :=
  match m (mkState d [] (store_faults e)) with
  | (Ok resp, s) => mkServed (Responded resp) (db s) (trace s)
  | (Throw err, s) => mkServed (Unhandled err) (db s) (trace s)
  end.

(** [user.password] *)
Definition stored_password (u : User) : string := password u.

(** ** The application *)

(** [expiresIn: "30d"], in seconds. *)
Definition expiresIn_30d : Z := 30 * 24 * 60 * 60.

Section App.
Context `{Jwt} `{Bcrypt} `{Runtime}.
Variable cfg : config.

(** *** The auth middleware *)

Definition auth (e : env) (r : req) (next : req -> M response) : M response :=
  let token := header_x_auth_token r in
  if negb (truthy token)
  then res_status_json 401 (Msg "No token, authorization denied")
  else
    match jwt_verify (value token) (JWT_SECRET cfg) (clock_s e) with
    | Some decoded => next (mkReq (http r) (Some decoded) (file r))
    | None => res_status_json 400 (Msg "Token is not valid")
    end.

(** *** [upload.single("image")]

    Multer hands the file part to the Cloudinary storage and sets [req.file]
    and [req.body]; without a file part it goes on and [req.file] stays
    [undefined]; a failed upload goes to [next(err)], which Express answers
    itself. *)
Definition upload_single (e : env) (r : req) (next : req -> M response)
    : M response :=
  match image (http r) with
  | None => next r
  | Some img =>
      match media_host e img with
      | inr url =>
          next (mkReq (multipart_parsed (http r)) (user r) (Some url))
      | inl detail => ret (mkResponse 500 (ErrorPage (UploadError detail)))
      end
  end.

(** *** [POST /api/auth/register] *)

Definition new_User (e : env) (fn ln em hashedPassword : string) : User :=
  {| user_id := fresh_oid e;
     firstName := fn;
     lastName := ln;
     email := em;
     password := hashedPassword;
     location := "New Delhi, India" |}.

(** The [try] block of the handler. *)
Definition register_body (e : env) (r : req) : M response :=
  b <- req_body "firstName" r ;;
  let firstName := prop "firstName" b in
  let lastName := prop "lastName" b in
  let email := prop "email" b in
  let password := prop "password" b in
  if negb (truthy firstName) || negb (truthy lastName)
     || negb (truthy email) || negb (truthy password)
  then res_status_json 400 (Msg "Please enter all fields")
  else
    user <- User_findOne email ;;
    match user with
    | Some _ => res_status_json 400 (Msg "User already exists")
    | None =>
        let salt := bcrypt_genSalt 10 (salt_entropy e) in
        let hashedPassword := bcrypt_hash (value password) salt in
        let user :=
          new_User e (value firstName) (value lastName) (value email)
            hashedPassword in
        saved <- User_save user ;;
        let token :=
          jwt_sign (user_id saved) (JWT_SECRET cfg) (clock_s e)
            expiresIn_30d in
        res_json (Token token)
    end.

Definition register (e : env) (r : req) : M response :=
  try_catch (register_body e r)
    (fun err => res_status_json 500 (Error (message err))).

(** *** [POST /api/auth/login] *)

(** [bcrypt.compare(password, hash)]; the promise rejects when [password] is
    not a string. *)
Definition await_bcrypt_compare (password : jsfield) (hash : string) : M bool :=
  match password with
  | Some p => ret (bcrypt_compare p hash)
  | None => throw IllegalArguments
  end.

(** The [try] block of the handler. *)
Definition login_body (e : env) (r : req) : M response :=
  b <- req_body "email" r ;;
  let email := prop "email" b in
  let password := prop "password" b in
  user <- User_findOne email ;;
  match user with
  | None => res_status_json 400 (Msg "User does not exist")
  | Some u =>
      isMatch <- await_bcrypt_compare password (stored_password u) ;;
      if negb isMatch
      then res_status_json 400 (Msg "Invalid credentials")
      else
        let token :=
          jwt_sign (user_id u) (JWT_SECRET cfg) (clock_s e) expiresIn_30d in
        res_json (Token token)
  end.

Definition login (e : env) (r : req) : M response :=
  try_catch (login_body e r)
    (fun err => res_status_json 500 (Error (message err))).

(** *** [GET /api/dashboard/stats] *)

(** The [try] block of the handler. *)
Definition dashboard_stats_body (r : req) : M response :=
  uid <- req_user_id r ;;
  user <- User_findById uid ;;
  totalItems <- Item_countDocuments uid ;;
  dirtyItems <- Item_countDocuments_dirty uid ;;
  let isNewUser := Nat.eqb totalItems 0 in
  match user with
  | None => throw (TypeError "firstName")
  | Some u =>
      res_json
        (Stats (firstName u ++ " " ++ lastName u) totalItems dirtyItems
           isNewUser)
  end.

Definition dashboard_stats (r : req) : M response :=
  try_catch (dashboard_stats_body r)
    (fun err => res_status_json 500 (Msg "Server Error")).

(** *** [POST /api/items] *)

Definition await_JSON_parse (s : string) : M json :=
  match JSON_parse s with
  | inr j => ret j
  | inl detail => throw (SyntaxError detail)
  end.

(** The [try] block of the handler. *)
Definition create_item_body (e : env) (r : req) : M response :=
  b <- req_body "name" r ;;
  let name := prop "name" b in
  let category := prop "category" b in
  let subCategory := prop "subCategory" b in
  let seasons := prop "seasons" b in
  let color := prop "color" b in
  let warmth := prop "warmth" b in
  uid <- req_user_id r ;;
  imageUrl <- req_file_path r ;;
  parsed <- (if truthy seasons then await_JSON_parse (value seasons)
             else ret (JArray [])) ;;
  let item :=
    mkItemFields uid name imageUrl category subCategory parsed color
      (Number_ warmth) in
  saved <- Item_save e item ;;
  res_json (OneItem saved).

Definition create_item (e : env) (r : req) : M response :=
  try_catch (create_item_body e r)
    (fun err => res_status_json 500 (Error (message err))).

(** *** [GET /api/items] *)

Definition list_items (r : req) : M response :=
  uid <- req_user_id r ;;
  items <- Item_find uid ;;
  res_json (Items items).

(** *** The frontend fallback route *)

Definition frontend_fallback (r : req) : M response :=
  ret (mkResponse 200 (File "public/index.html")).

(** *** Routing *)

Definition app (e : env) (h : http_request) : M response :=
  let r := incoming h in
  match target h with
  | POST_api_auth_register => register e r
  | POST_api_auth_login => login e r
  | GET_api_dashboard_stats => auth e r dashboard_stats
  | POST_api_items => auth e r (fun r => upload_single e r (create_item e))
  | GET_api_items => auth e r list_items
  | GET_any _ => frontend_fallback r
  | Unrouted => ret (mkResponse 404 NotFound)
  end.

(** One request against the database [d]. *)
Definition serve (e : env) (h : http_request) (d : database) : served :=
  run e (app e h) d.

(** A sequence of requests, each in its own environment. *)
Fixpoint serve_all (rs : list (env * http_request)) (d : database) : database :=
  match rs with
  | [] => d
  | (e, h) :: rs' => serve_all rs' (db_after (serve e h d))
  end.

End App.

(** ** An executable instance of the interfaces

    Small stand-ins for the libraries, on which the handlers run by
    computation.  [Reference.jwt] keeps the claim and the key in the clear
    (a token is the issue time, the expiry, the identifier and the key, each
    self-delimiting) and rejects a token from its expiry on, the comparison
    [jsonwebtoken] makes; [Reference.runtime] parses the JSON of literals,
    integers, strings without escapes, arrays and objects. *)
Module Reference.

(** *** Self-delimiting numbers *)

Fixpoint put_pos (p : positive) (rest : string) : string :=
  match p with
  | xH => String "!"%char rest
  | xO p' => String "0"%char (put_pos p' rest)
  | xI p' => String "1"%char (put_pos p' rest)
  end.

Fixpoint get_pos (s : string) : option (positive * string) :=
  match s with
  | String "!"%char rest => Some (xH, rest)
  | String "0"%char s' =>
      match get_pos s' with
      | Some (p, rest) => Some (xO p, rest)
      | None => None
      end
  | String "1"%char s' =>
      match get_pos s' with
      | Some (p, rest) => Some (xI p, rest)
      | None => None
      end
  | _ => None
  end.

Definition put_Z (z : Z) (rest : string) : string :=
  match z with
  | Z0 => String "z"%char rest
  | Zpos p => String "+"%char (put_pos p rest)
  | Zneg p => String "-"%char (put_pos p rest)
  end.

Definition get_Z (s : string) : option (Z * string) :=
  match s with
  | String "z"%char rest => Some (Z0, rest)
  | String "+"%char s' =>
      match get_pos s' with
      | Some (p, rest) => Some (Zpos p, rest)
      | None => None
      end
  | String "-"%char s' =>
      match get_pos s' with
      | Some (p, rest) => Some (Zneg p, rest)
      | None => None
      end
  | _ => None
  end.

(** The first [n] characters of [s] and what follows them. *)
Fixpoint split_at (n : nat) (s : string) : option (string * string) :=
  match n, s with
  | O, _ => Some (EmptyString, s)
  | S n', String c s' =>
      match split_at n' s' with
      | Some (a, b) => Some (String c a, b)
      | None => None
      end
  | S _, EmptyString => None
  end.

(** *** Tokens *)

Definition sign (i : ObjectId) (key : string) (t ttl : Z) : string :=
  put_Z t (put_Z (t + ttl)
    (put_Z (Z.of_nat (String.length i)) (i ++ key))).

Definition verify (tok key : string) (t : Z) : option claim :=
  match get_Z tok with
  | None => None
  | Some (issued, s1) =>
      match get_Z s1 with
      | None => None
      | Some (expires, s2) =>
          match get_Z s2 with
          | None => None
          | Some (n, s3) =>
              match split_at (Z.to_nat n) s3 with
              | None => None
              | Some (i, signed_with) =>
                  if negb (signed_with =? key)%string then None
                  else if expires <=? t then None
                  else Some (mkClaim i issued expires)
              end
          end
      end
  end.

#[export] Instance jwt : Jwt :=
  {| jwt_sign := sign; jwt_verify := verify |}.

(** *** Password hashes *)

Fixpoint checksum (s : string) : Z :=
  match s with
  | EmptyString => 0
  | String c s' =>
      (Z.of_nat (Ascii.nat_of_ascii c) + 31 * checksum s') mod 65521
  end.

Definition genSalt (rounds : nat) (entropy : string) : string :=
  put_Z (Z.of_nat rounds) (put_Z (Z.of_nat (String.length entropy)) entropy).

Definition hash (pw salt : string) : string :=
  salt ++ put_Z (checksum (salt ++ pw)) "".

(** The salt a hash starts with. *)
Definition salt_of (h : string) : option string :=
  match get_Z h with
  | None => None
  | Some (rounds, s1) =>
      match get_Z s1 with
      | None => None
      | Some (n, s2) =>
          match split_at (Z.to_nat n) s2 with
          | None => None
          | Some (entropy, _) => Some (genSalt (Z.to_nat rounds) entropy)
          end
      end
  end.

Definition compare (pw h : string) : bool :=
  match salt_of h with
  | Some salt => (hash pw salt =? h)%string
  | None => false
  end.

#[export] Instance bcrypt : Bcrypt :=
  {| bcrypt_genSalt := genSalt; bcrypt_hash := hash;
     bcrypt_compare := compare |}.

(** *** [JSON.parse], [Number] and casting *)

Definition dquote : ascii := ascii_of_nat 34.

Definition is_space (c : ascii) : bool :=
  let n := nat_of_ascii c in
  Nat.eqb n 32 || Nat.eqb n 9 || Nat.eqb n 10 || Nat.eqb n 13.

Definition is_digit (c : ascii) : bool :=
  let n := nat_of_ascii c in
  Nat.leb 48 n && Nat.leb n 57.

Fixpoint skip_space (s : string) : string :=
  match s with
  | String c s' => if is_space c then skip_space s' else s
  | EmptyString => s
  end.

(** The characters up to the closing quote; an escape is refused. *)
Fixpoint read_chars (s : string) : option (string * string) :=
  match s with
  | EmptyString => None
  | String c s' =>
      if Ascii.eqb c dquote then Some (EmptyString, s')
      else if Ascii.eqb c "\"%char then None
      else
        match read_chars s' with
        | Some (a, rest) => Some (String c a, rest)
        | None => None
        end
  end.

Fixpoint read_digits (s : string) : string * string :=
  match s with
  | String c s' =>
      if is_digit c
      then let (a, rest) := read_digits s' in (String c a, rest)
      else (EmptyString, s)
  | EmptyString => (EmptyString, s)
  end.

Definition read_integer (s : string) : option (string * string) :=
  match s with
  | String "-"%char s' =>
      match read_digits s' with
      | (EmptyString, _) => None
      | (ds, rest) => Some (String "-"%char ds, rest)
      end
  | _ =>
      match read_digits s with
      | (EmptyString, _) => None
      | (ds, rest) => Some (ds, rest)
      end
  end.

Definition after (word s : string) : option string :=
  if String.prefix word s
  then Some (substring (String.length word)
               (String.length s - String.length word) s)
  else None.

Fixpoint parse_value (fuel : nat) (s : string) : option (json * string) :=
  match fuel with
  | O => None
  | S fuel' =>
      match skip_space s with
      | EmptyString => None
      | String c s' as s0 =>
          if Ascii.eqb c dquote then
            match read_chars s' with
            | Some (str, rest) => Some (JString str, rest)
            | None => None
            end
          else if Ascii.eqb c "["%char then
            match skip_space s' with
            | String "]"%char rest => Some (JArray [], rest)
            | _ =>
                match parse_elements fuel' s' with
                | Some (l, rest) => Some (JArray l, rest)
                | None => None
                end
            end
          else if Ascii.eqb c "{"%char then
            match skip_space s' with
            | String "}"%char rest => Some (JObject [], rest)
            | _ =>
                match parse_members fuel' s' with
                | Some (l, rest) => Some (JObject l, rest)
                | None => None
                end
            end
          else
            match after "null" s0, after "true" s0, after "false" s0 with
            | Some rest, _, _ => Some (JNull, rest)
            | _, Some rest, _ => Some (JBool true, rest)
            | _, _, Some rest => Some (JBool false, rest)
            | _, _, _ =>
                match read_integer s0 with
                | Some (lit, rest) => Some (JNumber lit, rest)
                | None => None
                end
            end
      end
  end
with parse_elements (fuel : nat) (s : string) : option (list json * string) :=
  match fuel with
  | O => None
  | S fuel' =>
      match parse_value fuel' s with
      | None => None
      | Some (v, rest) =>
          match skip_space rest with
          | String ","%char rest' =>
              match parse_elements fuel' rest' with
              | Some (l, rest'') => Some (v :: l, rest'')
              | None => None
              end
          | String "]"%char rest' => Some ([v], rest')
          | _ => None
          end
      end
  end
with parse_members (fuel : nat) (s : string)
    : option (list (string * json) * string) :=
  match fuel with
  | O => None
  | S fuel' =>
      match skip_space s with
      | String c s' =>
          if negb (Ascii.eqb c dquote) then None
          else
            match read_chars s' with
            | None => None
            | Some (k, rest) =>
                match skip_space rest with
                | String ":"%char rest' =>
                    match parse_value fuel' rest' with
                    | None => None
                    | Some (v, rest'') =>
                        match skip_space rest'' with
                        | String ","%char r =>
                            match parse_members fuel' r with
                            | Some (l, r') => Some ((k, v) :: l, r')
                            | None => None
                            end
                        | String "}"%char r => Some ([(k, v)], r)
                        | _ => None
                        end
                    end
                | _ => None
                end
            end
      | EmptyString => None
      end
  end.

Definition parse (s : string) : string + json :=
  match parse_value (2 * String.length s + 2) s with
  | Some (v, rest) =>
      match skip_space rest with
      | EmptyString => inr v
      | _ => inl "Unexpected non-whitespace character after JSON"
      end
  | None => inl "Unexpected token in JSON"
  end.

Fixpoint digits_value (acc : Z) (s : string) : option Z :=
  match s with
  | EmptyString => Some acc
  | String c s' =>
      if is_digit c
      then digits_value (10 * acc + (Z.of_nat (nat_of_ascii c) - 48)) s'
      else None
  end.

(** [Number(s)] on the empty string and on decimal integers. *)
Definition to_number (s : string) : jsnum :=
  match s with
  | EmptyString => Finite (inject_Z 0)
  | String "-"%char (String _ _ as ds) =>
      match digits_value 0 ds with
      | Some z => Finite (inject_Z (- z))
      | None => NaN
      end
  | _ =>
      match digits_value 0 s with
      | Some z => Finite (inject_Z z)
      | None => NaN
      end
  end.

Fixpoint strings_of (l : list json) : option (list string) :=
  match l with
  | [] => Some []
  | JString s :: l' =>
      match strings_of l' with
      | Some ss => Some (s :: ss)
      | None => None
      end
  | _ :: _ => None
  end.

(** An array of strings is kept; a lone string becomes an array of one. *)
Definition cast_strings (j : json) : option (list string) :=
  match j with
  | JArray l => strings_of l
  | JString s => Some [s]
  | _ => None
  end.

Definition text_of (e : js_error) : string :=
  match e with
  | TypeError p =>
      "Cannot read properties of undefined (reading '" ++ p ++ "')"
  | CannotDestructure p =>
      "Cannot destructure property '" ++ p
        ++ "' of 'req.body' as it is undefined."
  | SyntaxError detail => detail
  | IllegalArguments => "Illegal arguments: undefined, string"
  | ValidationError model paths =>
      model ++ " validation failed: " ++ String.concat ", " paths
  | DuplicateKey path key =>
      "E11000 duplicate key error: " ++ path ++ ": " ++ key
  | StoreError detail => detail
  | UploadError detail => detail
  end.

#[export] Instance runtime : Runtime :=
  {| JSON_parse := parse; StringToNumber := to_number;
     cast_string_array := cast_strings; message := text_of |}.

(** [s] between double quotes. *)
Definition quoted (s : string) : string :=
  String dquote (s ++ String dquote EmptyString).

End Reference.

(** ** Vocabulary of the properties *)

(** The routes registered with [auth]. *)
Definition protected (t : route) : bool :=
  match t with
  | GET_api_dashboard_stats | POST_api_items | GET_api_items => true
  | _ => false
  end.

(** No store call of the request is rejected. *)
Definition clear (fs : list (option string)) : bool :=
  forallb (fun f => match f with None => true | Some _ => false end) fs.

Definition store_up (e : env) : Prop := clear (store_faults e) = true.

(** The four fields of a registration are all truthy. *)
Definition all_fields_entered (h : http_request) : bool :=
  negb (negb (truthy (prop "firstName" (body h)))
        || negb (truthy (prop "lastName" (body h)))
        || negb (truthy (prop "email" (body h)))
        || negb (truthy (prop "password" (body h)))).

(** The items of the collection owned by [i], and the dirty ones among them. *)
Definition items_of (i : ObjectId) (d : database) : list Item :=
  filter (owned_by i) (items d).

Definition dirty_items_of (i : ObjectId) (d : database) : list Item :=
  filter (fun it => owned_by i it && dirty it) (items d).

(** The routes whose handler is a [try]/[catch]. *)
Definition catches (t : route) : bool :=
  match t with
  | POST_api_auth_register | POST_api_auth_login
  | GET_api_dashboard_stats | POST_api_items => true
  | _ => false
  end.

(** The detail with which the last store call of a served request was
    rejected, if it was. *)
Definition rejected_call (e : env) (sv : served) : option string :=
  match calls sv with
  | [] => None
  | _ :: _ =>
      match nth_error (store_faults e) (length (calls sv) - 1) with
      | Some (Some detail) => Some detail
      | _ => None
      end
  end.

(** The request [h] with [pw] as the [password] of its body. *)
Definition with_password (pw : string) (h : http_request) : http_request :=
  mkHttp (target h) (x_auth_token h) (("password", pw) :: body h) (image h).

(** A request has the properties of its body only when it has a body. *)
Definition has_body (h : http_request) : Prop := payload h = Some (body h).

Section Vocabulary.
Context `{Jwt} `{Bcrypt} `{Runtime}.
Variable cfg : config.

(** What a protected route registers after [auth]. *)
Definition behind_auth (e : env) (t : route) : req -> M response :=
  match t with
  | GET_api_dashboard_stats => dashboard_stats
  | POST_api_items => fun r => upload_single e r (create_item e)
  | GET_api_items => list_items
  | _ => fun _ => ret (mkResponse 404 NotFound)
  end.

(** The document a registration asks to store. *)
Definition registered (e : env) (h : http_request) : User :=
  new_User e (value (prop "firstName" (body h)))
    (value (prop "lastName" (body h))) (value (prop "email" (body h)))
    (bcrypt_hash (value (prop "password" (body h)))
       (bcrypt_genSalt 10 (salt_entropy e))).

(** A stored password is a hash made with a salt of ten rounds. *)
Definition salted_hash (p : string) : Prop :=
  exists pw entropy, p = bcrypt_hash pw (bcrypt_genSalt 10 entropy).

Definition passwords_hashed (d : database) : Prop :=
  Forall (fun u => salted_hash (password u)) (users d).

(** Two passwords the program cannot tell apart by the tests it makes on a
    password: whether it is empty, whether its hash is, and whether it
    matches a stored hash. *)
Definition same_tests (e : env) (d : database) (pw1 pw2 : string) : Prop :=
  (pw1 =? "")%string = (pw2 =? "")%string /\
  (bcrypt_hash pw1 (bcrypt_genSalt 10 (salt_entropy e)) =? "")%string =
    (bcrypt_hash pw2 (bcrypt_genSalt 10 (salt_entropy e)) =? "")%string /\
  forall u, In u (users d) ->
    bcrypt_compare pw1 (password u) = bcrypt_compare pw2 (password u).

(** Two passwords with the same digest: both empty or neither, the same
    [bcrypt.hash] under the salt of the request, and the same answer of
    [bcrypt.compare] against every stored hash.  Distinct passwords can have
    the same digest: [bcrypt] reads no more than the first 72 bytes of a
    password. *)
Definition same_digest (e : env) (d : database) (pw1 pw2 : string) : Prop :=
  (pw1 =? "")%string = (pw2 =? "")%string /\
  bcrypt_hash pw1 (bcrypt_genSalt 10 (salt_entropy e)) =
    bcrypt_hash pw2 (bcrypt_genSalt 10 (salt_entropy e)) /\
  forall u, In u (users d) ->
    bcrypt_compare pw1 (password u) = bcrypt_compare pw2 (password u).

(** The token a registration or a login sends for the user [i]. *)
Definition issued (e : env) (i : ObjectId) : string :=
  jwt_sign i (JWT_SECRET cfg) (clock_s e) expiresIn_30d.

(** What [jsonwebtoken] is relied on for, from its issue to its expiry: a
    token is a non-empty string; under the key that signed it, it verifies at
    every second from its issue up to the last one before its expiry, to the
    claim of the identifier, the issue time and the expiry; and it no longer
    verifies once the expiry has passed.  The second of the expiry itself is
    the matter of [jwt_expiry_contract]. *)
Definition jwt_contract : Prop :=
  forall i key t ttl,
    jwt_sign i key t ttl <> "" /\
    (forall t', t <= t' < t + ttl ->
       jwt_verify (jwt_sign i key t ttl) key t'
       = Some (mkClaim i t (t + ttl))) /\
    (forall t', t + ttl < t' ->
       jwt_verify (jwt_sign i key t ttl) key t' = None).

(** [jwt.verify] compares the clock with [exp] by [>=]
    ([clockTimestamp >= payload.exp] throws [TokenExpiredError]): at the
    second of its expiry a token is already refused. *)
Definition jwt_expiry_contract : Prop :=
  forall i key t ttl, jwt_verify (jwt_sign i key t ttl) key (t + ttl) = None.

(** The claim of a token issued for [i] in the environment [e]. *)
Definition claim_issued (e : env) (i : ObjectId) : claim :=
  mkClaim i (clock_s e) (clock_s e + 30 * 24 * 60 * 60).

(** What [create_item] gives [new Item] for the user [i], once the image is at
    [url] and the seasons are parsed as [j]. *)
Definition item_fields (h : http_request) (i : ObjectId) (url : string)
    (j : json) : Item_fields :=
  mkItemFields i (prop "name" (body h)) url (prop "category" (body h))
    (prop "subCategory" (body h)) j (prop "color" (body h))
    (Number_ (prop "warmth" (body h))).

(** What Mongoose's casting is relied on for: an array of strings is kept
    as it is. *)
Definition cast_contract : Prop :=
  forall l, cast_string_array (JArray (map JString l)) = Some l.

(** The identity [auth] lets a request through as, if it does. *)
Definition requester (e : env) (h : http_request) : option ObjectId :=
  if truthy (x_auth_token h)
  then
    match jwt_verify (value (x_auth_token h)) (JWT_SECRET cfg) (clock_s e) with
    | Some c => Some (id c)
    | None => None
    end
  else None.

Definition requested_by (i : ObjectId) (eh : env * http_request) : bool :=
  match requester (fst eh) (snd eh) with
  | Some j => (j =? i)%string
  | None => false
  end.

(** The items a request creates: what it adds to an empty collection. *)
Definition created (eh : env * http_request) : list Item :=
  items (db_after (serve cfg (fst eh) (snd eh) (mkDb [] []))).

End Vocabulary.

(** ** Sample data *)
Module Sample.

Definition cfg : config := mkConfig "s3cret".

(** An environment with the store and the media host up. *)
Definition env_at (t_ms : Z) (oid : ObjectId) : env :=
  mkEnv t_ms "entropy" oid []
    (fun img => inr ("https://media.example/" ++ img)%string).

(** An environment whose first store call is rejected. *)
Definition env_down (t_ms : Z) (oid : ObjectId) : env :=
  mkEnv t_ms "entropy" oid [Some "connection refused"]
    (fun img => inr ("https://media.example/" ++ img)%string).

Definition empty_db : database := mkDb [] [].

Definition ada : User :=
  mkUser "u1" "Ada" "Lovelace" "ada@example.org"
    (Reference.hash "analytical" (Reference.genSalt 10 "entropy"))
    "New Delhi, India".

Definition bob : User :=
  mkUser "u2" "Bob" "Kahn" "bob@example.org"
    (Reference.hash "packets" (Reference.genSalt 10 "entropy"))
    "New Delhi, India".

Definition coat : Item :=
  mkItem "i1" "u1" "Coat" "https://media.example/coat.png" "outerwear" None
    ["winter"] (Some "black") (Finite (inject_Z 9)) true None 1000.

Definition shirt : Item :=
  mkItem "i2" "u1" "Shirt" "https://media.example/shirt.png" "tops" None
    ["summer"] (Some "white") (Finite (inject_Z 2)) false None 2000.

Definition scarf : Item :=
  mkItem "i3" "u2" "Scarf" "https://media.example/scarf.png" "accessories"
    None ["winter"] None (Finite (inject_Z 6)) true None 3000.

Definition two_users : database := mkDb [ada; bob] [].

Definition wardrobe : database := mkDb [ada; bob] [coat; scarf; shirt].

Definition registration (fn ln em pw : string) : http_request :=
  mkHttp POST_api_auth_register None
    [("firstName", fn); ("lastName", ln); ("email", em); ("password", pw)]
    None.

(** A token for [i], issued at second [t]. *)
Definition token_for (i : ObjectId) (t : Z) : string :=
  Reference.sign i (JWT_SECRET cfg) t expiresIn_30d.

(** The text [["summer","fall"]]. *)
Definition summer_fall : string :=
  "[" ++ Reference.quoted "summer" ++ "," ++ Reference.quoted "fall" ++ "]".

Definition creation (tok nm cat ssn wrm : string) (img : option string)
    : http_request :=
  mkHttp POST_api_items (Some tok)
    [("name", nm); ("category", cat); ("seasons", ssn); ("warmth", wrm)] img.

Definition listing (tok : string) : http_request :=
  mkHttp GET_api_items (Some tok) [] None.

Definition dashboard (tok : string) : http_request :=
  mkHttp GET_api_dashboard_stats (Some tok) [] None.

(** Ada and Bob, each with a token issued at second 0, create items in
    turn. *)
Definition interleaved : list (env * http_request) :=
  [ (env_at 1000 "i1",
     creation (token_for "u1" 0) "Coat" "outerwear" summer_fall "9"
       (Some "coat.png"));
    (env_at 2000 "i2",
     creation (token_for "u2" 0) "Scarf" "accessories" summer_fall "6"
       (Some "scarf.png"));
    (env_at 3000 "i3",
     creation (token_for "u1" 0) "Shirt" "tops" summer_fall "2"
       (Some "shirt.png")) ].

End Sample.

(** ** Tactics *)

(** Case analysis on the innermost [match] of the goal. *)
Ltac break_inner :=
  match goal with
  | |- context [match ?x with _ => _ end] =>
      lazymatch x with
      | context [match _ with _ => _ end] => fail
      | _ => destruct x eqn:?
      end
  end.

(** Unfolding a handler down to the state it threads. *)
Ltac unfold_monad :=
  unfold try_catch, bind, await_store, res_json, res_status_json, ret, throw.

(** The handlers and the calls they make, for [autounfold]. *)
Create HintDb handlers discriminated.
#[global] Hint Unfold auth upload_single register register_body registered
  login login_body dashboard_stats dashboard_stats_body create_item
  create_item_body list_items frontend_fallback req_user_id req_file_path
  await_JSON_parse await_bcrypt_compare stored_password User_findOne
  User_findById User_save Item_countDocuments Item_countDocuments_dirty
  Item_find Item_save header_x_auth_token req_body body multipart_parsed
  incoming issued mkHttp : handlers.

(** One goal for each route of the request [h], the handler unfolded. *)
Ltac open_route h :=
  unfold serve, run, app; destruct (target h) eqn:?;
  autounfold with handlers; unfold_monad; simpl.

(** One goal for each path through the handler of each route. *)
Ltac by_route h := open_route h; repeat (break_inner; simpl in * ).


(** ** Vocabulary of the further properties *)

(** The request [h] with [t] as its [x-auth-token] header. *)
Definition with_token (t : jsfield) (h : http_request) : http_request :=
  Http (target h) t (payload h) (image h).

(** No two users share an address. *)
Definition emails_unique (d : database) : Prop :=
  NoDup (map email (users d)).

(** What [ItemSchema] asks of a stored item (the required strings are not
    empty, [warmth] is a number from 1 to 10), with the defaults of [isClean]
    and [lastWorn]. *)
Definition item_well_formed (it : Item) : Prop :=
  name it <> "" /\ imageUrl it <> "" /\ category it <> "" /\
  (exists q, warmth it = Finite q /\ (1 <= q)%Q /\ (q <= 10)%Q) /\
  isClean it = true /\ lastWorn it = None.

(** The store calls the handler of a route awaits, at most. *)
Definition store_calls_at_most (t : route) : nat :=
  match t with
  | POST_api_auth_register => 2
  | POST_api_auth_login => 1
  | GET_api_dashboard_stats => 3
  | POST_api_items => 1
  | GET_api_items => 1
  | GET_any _ => 0
  | Unrouted => 0
  end.

Section MoreVocabulary.
Context `{Jwt} `{Bcrypt} `{Runtime}.
Variable cfg : config.

(** What [bcryptjs] is relied on for where a login follows a registration:
    a password matches the hash made of it under a generated salt. *)
Definition bcrypt_contract : Prop :=
  forall pw rounds entropy,
    bcrypt_compare pw (bcrypt_hash pw (bcrypt_genSalt rounds entropy)) = true.

(** The conditions under which a registration succeeds on [d]: its four
    fields entered, the store up, the address not stored yet, and a hash
    that is not empty. *)
Definition registers (e : env) (h : http_request) (d : database) : Prop :=
  target h = POST_api_auth_register /\
  all_fields_entered h = true /\
  store_up e /\
  find (fun u => (email u =? value (prop "email" (body h)))%string) (users d)
  = None /\
  password (registered e h) <> "".

(** The conditions under which a creation by [i] stores the item [it] on any
    database: the gate lets it through as [i], its image uploads to [url],
    its seasons read as [j] and cast to [ss], its fields validate, and the
    store is up. *)
Definition creates (e : env) (h : http_request) (i : ObjectId) (it : Item)
    : Prop :=
  target h = POST_api_items /\
  requester cfg e h = Some i /\
  store_up e /\
  exists img url j ss,
    image h = Some img /\
    media_host e img = inr url /\
    (if truthy (prop "seasons" (body h))
     then JSON_parse (value (prop "seasons" (body h))) = inr j
     else j = JArray []) /\
    cast_string_array j = Some ss /\
    Item_invalid_paths (item_fields h i url j) = [] /\
    it = Item_document e (item_fields h i url j) ss.

End MoreVocabulary.

(** ** More sample data *)
Module Scenario.

Definition login (em pw : string) : http_request :=
  mkHttp POST_api_auth_login None [("email", em); ("password", pw)] None.

Definition cy : http_request :=
  Sample.registration "Cy" "Dee" "cy@example.org" "s3same".

(** The hat Ada uploads. *)
Definition hat : http_request :=
  Sample.creation (Sample.token_for "u1" 0) "Hat" "accessories"
    Sample.summer_fall "3" (Some "hat.png").

Definition hat_item : Item :=
  mkItem "i4" "u1" "Hat" "https://media.example/hat.png" "accessories" None
    ["summer"; "fall"] None (Finite (inject_Z 3)) true None 5000.

(** An environment whose media host is down. *)
Definition env_no_media (t_ms : Z) (oid : ObjectId) : env :=
  mkEnv t_ms "entropy" oid [] (fun _ => inl "upload failed").

End Scenario.
(** * Properties *)

(** ** The monad *)

Lemma bind_ret {A B} (a : A) (k : A -> M B) : bind (ret a) k = k a.
Proof. reflexivity. Qed.

Lemma bind_throw {A B} (e : js_error) (k : A -> M B) (s : mstate) :
  bind (throw e) k s = (Throw e, s).
Proof. reflexivity. Qed.

(** A [try]/[catch] whose handler returns never throws. *)
Lemma try_catch_returns {A} (body : M A) (handler : js_error -> A)
    (s : mstate) :
  exists a s', try_catch body (fun err => ret (handler err)) s = (Ok a, s').
Proof.
  unfold try_catch. destruct (body s) as [[a | err] s'].
  - exists a, s'. reflexivity.
  - exists (handler err), s'. reflexivity.
Qed.

(** What a [try]/[catch] makes of a throw in its body. *)
Lemma try_catch_throw {A} (body : M A) (handler : js_error -> M A)
    (s s' : mstate) (err : js_error) :
  body s = (Throw err, s') -> try_catch body handler s = handler err s'.
Proof. unfold try_catch. intros ->. reflexivity. Qed.

(** ** Store calls *)

Lemma clear_tl (fs : list (option string)) :
  clear fs = true -> clear (tl fs) = true.
Proof.
  destruct fs as [| [detail |] fs]; simpl; intros Hc;
    try reflexivity; congruence.
Qed.

(** A store call that is not rejected runs its operation. *)
Lemma await_store_clear {A} (c : store_call)
    (op : database -> result A * database) (s : mstate) :
  clear (faults s) = true ->
  await_store c op s =
    (fst (op (db s)),
     mkState (snd (op (db s))) (trace s ++ [c]) (tl (faults s))).
Proof.
  unfold await_store.
  destruct (faults s) as [| [detail |] fs]; simpl; intros Hc.
  - destruct (op (db s)); reflexivity.
  - discriminate.
  - destruct (op (db s)); reflexivity.
Qed.

(** A rejected store call throws and leaves the database as it was. *)
Lemma await_store_fault {A} (c : store_call)
    (op : database -> result A * database) (s : mstate)
    (detail : string) (fs : list (option string)) :
  faults s = Some detail :: fs ->
  await_store c op s =
    (Throw (StoreError detail), mkState (db s) (trace s ++ [c]) fs).
Proof. unfold await_store. intros ->. reflexivity. Qed.

Lemma truthy_value (x : jsfield) :
  truthy x = true -> x = Some (value x) /\ (value x =? "")%string = false.
Proof.
  destruct x as [s |]; simpl; [| discriminate].
  intros Hs. apply negb_true_iff in Hs. auto.
Qed.

Lemma User_findOne_clear (q : jsfield) (d : database) (tr : list store_call)
    (fs : list (option string)) :
  clear fs = true ->
  User_findOne q (mkState d tr fs) =
    (Ok match q with
        | None => None
        | Some em => find (fun u => (email u =? em)%string) (users d)
        end,
     mkState d (tr ++ [User_findOne_call q]) (tl fs)).
Proof.
  intros Hc. unfold User_findOne. rewrite await_store_clear by assumption.
  destruct q; reflexivity.
Qed.

(** ** The body of a request *)

Lemma has_body_of_prop (h : http_request) (k v : string) :
  prop k (body h) = Some v -> has_body h.
Proof.
  unfold has_body, body. destruct (payload h); simpl; [reflexivity |].
  discriminate.
Qed.

Lemma has_body_of_truthy (h : http_request) (k : string) :
  truthy (prop k (body h)) = true -> has_body h.
Proof.
  destruct (prop k (body h)) as [v |] eqn:Hk; [| discriminate].
  intros _. exact (has_body_of_prop h k v Hk).
Qed.

(** Destructuring the body of a request that has one. *)
Lemma req_body_present (p : string) (h : http_request) (u : option claim)
    (f : option string) :
  has_body h -> req_body p (mkReq h u f) = ret (body h).
Proof. unfold has_body, req_body. simpl. intros ->. reflexivity. Qed.

(** Destructuring the body of a request that has none. *)
Lemma req_body_absent (p : string) (h : http_request) (u : option claim)
    (f : option string) :
  payload h = None ->
  req_body p (mkReq h u f) = throw (CannotDestructure p).
Proof. unfold req_body. simpl. intros ->. reflexivity. Qed.

(** ** The auth gate *)

Section AuthGate.
Context `{Jwt} `{Bcrypt} `{Runtime}.
Variable cfg : config.

Lemma app_protected (e : env) (h : http_request) :
  protected (target h) = true ->
  app cfg e h = auth cfg e (incoming h) (behind_auth e (target h)).
Proof.
  unfold app, behind_auth. destruct (target h); simpl; congruence.
Qed.

(** Without a truthy header, [auth] answers 401 and calls nothing. *)
Lemma auth_no_token (e : env) (r : req) (next : req -> M response) :
  truthy (header_x_auth_token r) = false ->
  auth cfg e r next =
    res_status_json 401 (Msg "No token, authorization denied").
Proof. unfold auth. intros ->. reflexivity. Qed.

(** With a token that does not verify, [auth] answers 400 and calls
    nothing. *)
Lemma auth_invalid_token (e : env) (r : req) (next : req -> M response) :
  truthy (header_x_auth_token r) = true ->
  jwt_verify (value (header_x_auth_token r)) (JWT_SECRET cfg) (clock_s e)
  = None ->
  auth cfg e r next = res_status_json 400 (Msg "Token is not valid").
Proof. unfold auth. intros -> ->. reflexivity. Qed.

(** With a token that verifies, [auth] is one call of [next], on the request
    with the decoded claim as [req.user]. *)
Lemma auth_next_once (e : env) (r : req) (next : req -> M response)
    (c : claim) :
  truthy (header_x_auth_token r) = true ->
  jwt_verify (value (header_x_auth_token r)) (JWT_SECRET cfg) (clock_s e)
  = Some c ->
  auth cfg e r next = next (mkReq (http r) (Some c) (file r)).
Proof. unfold auth. intros -> ->. reflexivity. Qed.

(** C1, as the code has it.  On a protected route: a request whose
    [x-auth-token] header is absent or empty is answered 401 (NoToken); one
    whose non-empty token does not verify is answered 400 (InvalidToken); in
    both cases the database is as it was and no store call was made; and
    when the token verifies, the request is served by one run of the
    handler behind the gate, with the decoded claim as [req.user]. *)
Theorem auth_gate (e : env) (h : http_request) (d : database) :
  protected (target h) = true ->
  serve cfg e h d =
    if negb (truthy (x_auth_token h))
    then mkServed
           (Responded (mkResponse 401 (Msg "No token, authorization denied")))
           d []
    else
      match
        jwt_verify (value (x_auth_token h)) (JWT_SECRET cfg) (clock_s e)
      with
      | None =>
          mkServed (Responded (mkResponse 400 (Msg "Token is not valid"))) d []
      | Some c =>
          run e (behind_auth e (target h) (mkReq h (Some c) None)) d
      end.
Proof.
  intros Hp. unfold serve. rewrite (app_protected e h Hp).
  destruct (truthy (x_auth_token h)) eqn:Ht; simpl.
  - destruct (jwt_verify _ _ _) as [c |] eqn:Hv.
    + rewrite (auth_next_once e (incoming h) _ c Ht Hv). reflexivity.
    + rewrite (auth_invalid_token e (incoming h) _ Ht Hv). reflexivity.
  - rewrite (auth_no_token e (incoming h) _ Ht). reflexivity.
Qed.

(** The gate lets a request through as [i] when its token is truthy and
    verifies to a claim of [i]. *)
Lemma requester_Some (e : env) (h : http_request) (i : ObjectId) :
  requester cfg e h = Some i ->
  truthy (x_auth_token h) = true /\
  exists c, jwt_verify (value (x_auth_token h)) (JWT_SECRET cfg) (clock_s e)
            = Some c /\ id c = i.
Proof.
  unfold requester. destruct (truthy (x_auth_token h)); [| discriminate].
  destruct (jwt_verify _ _ _) as [c |]; [| discriminate].
  intros Hi. inversion Hi. eauto.
Qed.

Lemma serve_verified (e : env) (h : http_request) (d : database) (c : claim) :
  protected (target h) = true ->
  truthy (x_auth_token h) = true ->
  jwt_verify (value (x_auth_token h)) (JWT_SECRET cfg) (clock_s e) = Some c ->
  serve cfg e h d = run e (behind_auth e (target h) (mkReq h (Some c) None)) d.
Proof.
  intros Hp Ht Hv. unfold serve. rewrite (app_protected e h Hp).
  rewrite (auth_next_once e (incoming h) _ c Ht Hv). reflexivity.
Qed.

(** A request the gate lets through as [i] is served by the handler behind
    the gate, with a claim of [i] as [req.user]. *)
Lemma serve_as (e : env) (h : http_request) (d : database) (i : ObjectId) :
  protected (target h) = true ->
  requester cfg e h = Some i ->
  exists c, id c = i /\
    serve cfg e h d =
      run e (behind_auth e (target h) (mkReq h (Some c) None)) d.
Proof.
  intros Hp Hreq. destruct (requester_Some e h i Hreq) as (Ht & c & Hv & Hid).
  exists c. split; [exact Hid |].
  exact (serve_verified e h d c Hp Ht Hv).
Qed.

Lemma serve_invalid_token (e : env) (h : http_request) (d : database) :
  protected (target h) = true ->
  truthy (x_auth_token h) = true ->
  jwt_verify (value (x_auth_token h)) (JWT_SECRET cfg) (clock_s e) = None ->
  serve cfg e h d =
    mkServed (Responded (mkResponse 400 (Msg "Token is not valid"))) d [].
Proof.
  intros Hp Ht Hv. unfold serve. rewrite (app_protected e h Hp).
  rewrite (auth_invalid_token e (incoming h) _ Ht Hv). reflexivity.
Qed.

End AuthGate.

(** ** Registration *)

Section Registration.
Context `{Jwt} `{Bcrypt} `{Runtime}.
Variable cfg : config.

(** A registration with a body and a falsy field stops at the validation. *)
Lemma register_not_all_fields (e : env) (h : http_request) (s : mstate) :
  has_body h ->
  all_fields_entered h = false ->
  register cfg e (incoming h) s =
    (Ok (mkResponse 400 (Msg "Please enter all fields")), s).
Proof.
  intros Hb Hf. unfold register, register_body, incoming.
  rewrite (req_body_present _ h _ _ Hb), bind_ret.
  unfold all_fields_entered in Hf. apply negb_false_iff in Hf.
  unfold try_catch. rewrite Hf. reflexivity.
Qed.

(** A registration without a body: destructuring [req.body] throws inside
    the [try], before the validation. *)
Lemma register_no_body (e : env) (h : http_request) (s : mstate) :
  payload h = None ->
  register cfg e (incoming h) s =
    (Ok (mkResponse 500 (Error (message (CannotDestructure "firstName")))),
     s).
Proof.
  intros Hp. unfold register, register_body, incoming.
  rewrite (req_body_absent _ h _ _ Hp). reflexivity.
Qed.

(** C7, where the code departs from it.  A registration that arrives
    without a body has none of [firstName], [lastName], [email] and
    [password]; destructuring [req.body] throws before the validation is
    reached, and the [catch] answers 500 with the message of the
    [TypeError], not 400 with the validation message.  No store call is made
    and the database is as it was. *)
Theorem register_without_body (e : env) (h : http_request) (d : database) :
  target h = POST_api_auth_register ->
  payload h = None ->
  (prop "firstName" (body h) = None /\ prop "lastName" (body h) = None /\
   prop "email" (body h) = None /\ prop "password" (body h) = None) /\
  serve cfg e h d =
    mkServed
      (Responded
         (mkResponse 500 (Error (message (CannotDestructure "firstName")))))
      d [] /\
  serve cfg e h d <>
    mkServed (Responded (mkResponse 400 (Msg "Please enter all fields"))) d [].
Proof.
  intros Ht Hp.
  assert (Hserve : serve cfg e h d =
            mkServed
              (Responded
                 (mkResponse 500
                    (Error (message (CannotDestructure "firstName")))))
              d []).
  { unfold serve, run, app. rewrite Ht, (register_no_body e h _ Hp).
    reflexivity. }
  split; [| split].
  - unfold body. rewrite Hp. repeat split; reflexivity.
  - exact Hserve.
  - rewrite Hserve. intros Heq. inversion Heq.
Qed.

(** X19.  A registration with a body in which [firstName], [lastName],
    [email] or [password] is absent is answered 400 with the validation
    message: no token is sent, no store call is made and the database is as
    it was. *)
Theorem register_missing_field (e : env) (h : http_request) (d : database) :
  target h = POST_api_auth_register ->
  has_body h ->
  prop "firstName" (body h) = None \/ prop "lastName" (body h) = None \/
  prop "email" (body h) = None \/ prop "password" (body h) = None ->
  serve cfg e h d =
    mkServed (Responded (mkResponse 400 (Msg "Please enter all fields"))) d [].
Proof.
  intros Ht Hb Habsent. unfold serve, run, app. rewrite Ht.
  rewrite (register_not_all_fields e h _ Hb); [reflexivity |].
  unfold all_fields_entered.
  destruct Habsent as [-> | [-> | [-> | ->]]]; simpl;
    rewrite ?orb_true_r; reflexivity.
Qed.

(** [findOne] finds a user whose address is stored. *)
Lemma find_email_stored (em : string) (us : list User) :
  (exists u, In u us /\ email u = em) ->
  exists u, find (fun u => (email u =? em)%string) us = Some u.
Proof.
  intros [u [Hin Hem]].
  destruct (find (fun u => (email u =? em)%string) us) as [u' |] eqn:Hf.
  - exists u'. reflexivity.
  - apply (find_none _ _ Hf) in Hin. rewrite Hem, String.eqb_refl in Hin.
    discriminate.
Qed.

Lemma existsb_find_email (em : string) (us : list User) :
  existsb (fun u => (email u =? em)%string) us =
  match find (fun u => (email u =? em)%string) us with
  | Some _ => true
  | None => false
  end.
Proof.
  induction us as [| u us IH]; simpl; [reflexivity |].
  destruct (email u =? em)%string; simpl; auto.
Qed.

Lemma all_fields_entered_truthy (h : http_request) :
  all_fields_entered h = true ->
  truthy (prop "firstName" (body h)) = true /\
  truthy (prop "lastName" (body h)) = true /\
  truthy (prop "email" (body h)) = true /\
  truthy (prop "password" (body h)) = true.
Proof.
  unfold all_fields_entered. intros Hall. apply negb_true_iff in Hall.
  repeat (apply orb_false_iff in Hall; destruct Hall as [Hall ?]).
  repeat split; apply negb_false_iff; assumption.
Qed.

Lemma register_success (e : env) (h : http_request) (d : database) :
  target h = POST_api_auth_register ->
  all_fields_entered h = true ->
  store_up e ->
  find (fun u => (email u =? value (prop "email" (body h)))%string)
    (users d) = None ->
  password (registered e h) <> "" ->
  serve cfg e h d =
    mkServed (Responded (mkResponse 200 (Token (issued cfg e (fresh_oid e)))))
      (mkDb (users d ++ [registered e h]) (items d))
      [User_findOne_call (prop "email" (body h));
       User_save_call (registered e h)].
Proof.
  intros Ht Hall Hup Hfresh Hhash.
  destruct (all_fields_entered_truthy h Hall) as (Hfn & Hln & Hem & Hpw).
  apply truthy_value in Hfn, Hln, Hem.
  destruct Hfn as [_ Hfn], Hln as [_ Hln], Hem as [Hem Hem'].
  apply String.eqb_neq in Hhash.
  assert (Hb : has_body h)
    by (apply (has_body_of_prop h "email" _ Hem)).
  unfold serve, run, app. rewrite Ht.
  unfold register, register_body, incoming.
  rewrite (req_body_present _ h _ _ Hb), bind_ret. simpl.
  unfold all_fields_entered in Hall. apply negb_true_iff in Hall.
  rewrite Hall. unfold try_catch, bind. cbv beta iota.
  rewrite User_findOne_clear by exact Hup.
  unfold registered, new_User in *. simpl in Hhash.
  destruct (prop "email" (body h)) as [em |]; [| discriminate].
  simpl in Hfresh, Hem' |- *. rewrite Hfresh.
  unfold User_save. rewrite await_store_clear by (apply clear_tl; exact Hup).
  unfold User_invalid_paths. simpl.
  rewrite Hfn, Hln, Hem', Hhash. simpl.
  rewrite existsb_find_email, Hfresh. reflexivity.
Qed.
(** C8.  A registration whose [email] is already stored leaves the database
    as it was, whatever else it carries; when its four fields are entered and
    the store is up it is answered 400 with the duplicate message, after the
    one lookup. *)
Theorem register_duplicate_email (e : env) (h : http_request) (d : database)
    (em : string) :
  target h = POST_api_auth_register ->
  prop "email" (body h) = Some em ->
  (exists u, In u (users d) /\ email u = em) ->
  db_after (serve cfg e h d) = d /\
  (all_fields_entered h = true -> store_up e ->
   serve cfg e h d =
     mkServed (Responded (mkResponse 400 (Msg "User already exists"))) d
       [User_findOne_call (Some em)]).
Proof.
  intros Ht Hem Hstored.
  destruct (find_email_stored em (users d) Hstored) as [u Hu].
  pose proof (has_body_of_prop h "email" em Hem) as Hb.
  unfold serve, run, app. rewrite Ht.
  destruct (all_fields_entered h) eqn:Hall.
  - unfold register, register_body, incoming.
    rewrite (req_body_present _ h _ _ Hb), bind_ret. simpl.
    unfold all_fields_entered in Hall. apply negb_true_iff in Hall.
    rewrite Hall, Hem. unfold User_findOne. unfold_monad. simpl.
    rewrite Hu.
    split.
    + repeat (break_inner; simpl in * ); destruct d; reflexivity.
    + unfold store_up. intros _ Hup.
      destruct (store_faults e) as [| [detail |] fs]; simpl in *;
        try discriminate; destruct d; reflexivity.
  - rewrite (register_not_all_fields e h _ Hb Hall). simpl.
    split; [destruct d; reflexivity | discriminate].
Qed.

End Registration.

(** ** What a request can change *)

Section Frame.
Context `{Jwt} `{Bcrypt} `{Runtime}.
Variable cfg : config.

(** Only a registration changes the users, and by appending the document it
    was asked to store. *)
Lemma serve_users (e : env) (h : http_request) (d : database) :
  users (db_after (serve cfg e h d)) = users d \/
  (target h = POST_api_auth_register /\
   users (db_after (serve cfg e h d)) = users d ++ [registered e h]).
Proof. by_route h; auto. Qed.

(** A request appends to the items what it creates, whatever the database
    holds. *)
Lemma serve_items (e : env) (h : http_request) (d : database) :
  items (db_after (serve cfg e h d)) = items d ++ created cfg (e, h).
Proof.
  change (created cfg (e, h))
    with (items (db_after (serve cfg e h (mkDb [] [])))).
  by_route h; rewrite ?app_nil_r; auto.
Qed.

(** Only a request to [POST /api/items] creates an item, and the item is
    owned by the identity the gate let the request through as. *)
Lemma created_owner (e : env) (h : http_request) (it : Item) :
  In it (created cfg (e, h)) ->
  target h = POST_api_items /\ requester cfg e h = Some (userId it).
Proof.
  change (created cfg (e, h))
    with (items (db_after (serve cfg e h (mkDb [] [])))).
  unfold requester. by_route h; intros Hin; try contradiction; try congruence.
  all: destruct Hin as [<- | []]; split; reflexivity.
Qed.

End Frame.

(** ** Passwords *)

Section Passwords.
Context `{Jwt} `{Bcrypt} `{Runtime}.
Variable cfg : config.

(** The response to a request does not tell apart two passwords that pass
    the same tests. *)
Lemma response_hides_password (e : env) (h : http_request) (d : database)
    (pw1 pw2 : string) :
  same_tests e d pw1 pw2 ->
  result_of (serve cfg e (with_password pw1 h) d) =
  result_of (serve cfg e (with_password pw2 h) d).
Proof.
  intros (Hempty & Hhash & Hcmp).
  unfold with_password. generalize (body h) as b. intros b.
  open_route h; try reflexivity.
  - (* registration: the tests on the password and on its hash *)
    unfold User_invalid_paths, new_User. simpl. rewrite Hempty, Hhash.
    repeat (break_inner; simpl in * ); try reflexivity; congruence.
  - (* login: the comparison with the hash of the user found *)
    destruct (store_faults e) as [| [detail |] fs]; simpl; try reflexivity.
    all: destruct (prop "email" b) as [em |]; simpl; try reflexivity.
    all: match goal with
         | |- context [find ?f ?l] =>
             destruct (find f l) as [u |] eqn:Hfind; simpl;
             [apply find_some in Hfind; destruct Hfind as [Hin _];
              rewrite (Hcmp u Hin) | reflexivity]
         end.
    all: destruct (bcrypt_compare pw2 (password u)); reflexivity.
Qed.

(** What a request does (its response, the database it leaves and the store
    calls it makes, with their arguments) is the same for two passwords with
    the same digest: the plaintext goes nowhere but into [bcrypt]. *)
Lemma serve_hides_password (e : env) (h : http_request) (d : database)
    (pw1 pw2 : string) :
  same_digest e d pw1 pw2 ->
  serve cfg e (with_password pw1 h) d = serve cfg e (with_password pw2 h) d.
Proof.
  intros (Hempty & Hhash & Hcmp).
  unfold with_password. generalize (body h) as b. intros b.
  open_route h; try reflexivity.
  - (* registration: the emptiness test, then only the hash *)
    unfold User_invalid_paths, new_User. simpl. rewrite Hempty, Hhash.
    reflexivity.
  - (* login: the comparison with the hash of the user found *)
    destruct (store_faults e) as [| [detail |] fs]; simpl; try reflexivity.
    all: destruct (prop "email" b) as [em |]; simpl; try reflexivity.
    all: match goal with
         | |- context [find ?f ?l] =>
             destruct (find f l) as [u |] eqn:Hfind; simpl;
             [apply find_some in Hfind; destruct Hfind as [Hin _];
              rewrite (Hcmp u Hin) | reflexivity]
         end.
    all: reflexivity.
Qed.

Lemma registered_salted_hash (e : env) (h : http_request) :
  salted_hash (password (registered e h)).
Proof.
  exists (value (prop "password" (body h))), (salt_entropy e). reflexivity.
Qed.

Lemma serve_passwords_hashed (e : env) (h : http_request) (d : database) :
  passwords_hashed d -> passwords_hashed (db_after (serve cfg e h d)).
Proof.
  unfold passwords_hashed. intros Hd.
  destruct (serve_users cfg e h d) as [-> | [_ ->]]; [exact Hd |].
  apply Forall_app. split; [exact Hd |].
  constructor; [apply registered_salted_hash | constructor].
Qed.

(** C3.  The plaintext password is used for nothing but its digest.
    - A registration that succeeds stores exactly one more user: the names
      and the address as entered, the location of the schema's default, and
      as [password] the [bcrypt.hash] of the plaintext under a salt of ten
      rounds; it answers with the token and nothing else, after the lookup
      of the address and the save of that user.
    - Every request keeps every stored password such a salted hash.
    - To any route, in any database, two plaintext passwords with the same
      digest (both empty or neither, the same hash under the salt of the
      request, the same answer of [bcrypt.compare] against every stored
      hash) are served alike: the same response, the same database
      afterwards, field for field, and the same store calls with the same
      arguments.
    - Hence whatever requests follow, none is served differently for the
      one password or the other.
    - The response alone does not even tell apart two passwords that pass
      the same tests (being empty, hashing to the empty string, matching a
      stored hash). *)
Theorem password_only_hashed :
  (forall e h d,
      target h = POST_api_auth_register ->
      all_fields_entered h = true ->
      store_up e ->
      find (fun u => (email u =? value (prop "email" (body h)))%string)
        (users d) = None ->
      bcrypt_hash (value (prop "password" (body h)))
        (bcrypt_genSalt 10 (salt_entropy e)) <> "" ->
      let u :=
        mkUser (fresh_oid e) (value (prop "firstName" (body h)))
          (value (prop "lastName" (body h))) (value (prop "email" (body h)))
          (bcrypt_hash (value (prop "password" (body h)))
             (bcrypt_genSalt 10 (salt_entropy e)))
          "New Delhi, India" in
      serve cfg e h d =
        mkServed
          (Responded
             (mkResponse 200
                (Token
                   (jwt_sign (fresh_oid e) (JWT_SECRET cfg) (clock_s e)
                      expiresIn_30d))))
          (mkDb (users d ++ [u]) (items d))
          [User_findOne_call (prop "email" (body h)); User_save_call u]) /\
  (forall e h d,
      passwords_hashed d -> passwords_hashed (db_after (serve cfg e h d))) /\
  (forall e h d pw1 pw2,
      same_digest e d pw1 pw2 ->
      serve cfg e (with_password pw1 h) d =
      serve cfg e (with_password pw2 h) d) /\
  (forall e h d pw1 pw2 rs e' h',
      same_digest e d pw1 pw2 ->
      serve cfg e' h'
        (serve_all cfg ((e, with_password pw1 h) :: rs) d) =
      serve cfg e' h'
        (serve_all cfg ((e, with_password pw2 h) :: rs) d)) /\
  (forall e h d pw1 pw2,
      same_tests e d pw1 pw2 ->
      result_of (serve cfg e (with_password pw1 h) d) =
      result_of (serve cfg e (with_password pw2 h) d)).
Proof.
  split; [| split; [| split; [| split]]].
  - intros e h d Ht Hall Hup Hfresh Hhash u.
    exact (register_success cfg e h d Ht Hall Hup Hfresh Hhash).
  - exact serve_passwords_hashed.
  - exact serve_hides_password.
  - intros e h d pw1 pw2 rs e' h' Hsame. simpl.
    rewrite (serve_hides_password e h d pw1 pw2 Hsame). reflexivity.
  - exact response_hides_password.
Qed.

End Passwords.

(** ** Tokens *)

Section Tokens.
Context `{Jwt} `{Bcrypt} `{Runtime}.
Variable cfg : config.

(** The only token a registration sends is the one issued for the user it
    stored. *)
Lemma register_token (e : env) (h : http_request) (d : database)
    (tok : string) :
  target h = POST_api_auth_register ->
  result_of (serve cfg e h d) = Responded (mkResponse 200 (Token tok)) ->
  tok = issued cfg e (user_id (registered e h)) /\
  users (db_after (serve cfg e h d)) = users d ++ [registered e h].
Proof.
  intros Ht. unfold serve, run, app. rewrite Ht.
  autounfold with handlers. unfold_monad. simpl.
  repeat (break_inner; simpl in * ); intros Hres; inversion Hres; subst; auto.
Qed.

(** The only token a login sends is the one issued for the user it found,
    whose stored hash the password matched. *)
Lemma login_token (e : env) (h : http_request) (d : database) (tok : string) :
  target h = POST_api_auth_login ->
  result_of (serve cfg e h d) = Responded (mkResponse 200 (Token tok)) ->
  exists u,
    In u (users d) /\
    tok = issued cfg e (user_id u) /\
    bcrypt_compare (value (prop "password" (body h))) (password u) = true /\
    db_after (serve cfg e h d) = d.
Proof.
  intros Ht. unfold serve, run, app. rewrite Ht.
  autounfold with handlers. unfold_monad. simpl.
  repeat (break_inner; simpl in * ); intros Hres; inversion Hres; subst.
  all: match goal with
       | Hf : find _ _ = Some ?u |- _ =>
           exists u; apply find_some in Hf; destruct Hf as [Hin _]
       end.
  all: repeat split; auto; try (destruct d; reflexivity).
  all: match goal with
       | Hn : negb _ = false |- _ => apply negb_false_iff in Hn; exact Hn
       end.
Qed.

(** A login with the address of a stored user and a password that matches
    its hash, the store up, is answered with a token issued for that user. *)
Lemma login_success (e : env) (h : http_request) (d : database)
    (em pw : string) (u : User) :
  target h = POST_api_auth_login ->
  store_up e ->
  prop "email" (body h) = Some em ->
  prop "password" (body h) = Some pw ->
  find (fun u => (email u =? em)%string) (users d) = Some u ->
  bcrypt_compare pw (password u) = true ->
  serve cfg e h d =
    mkServed (Responded (mkResponse 200 (Token (issued cfg e (user_id u))))) d
      [User_findOne_call (Some em)].
Proof.
  intros Ht Hup Hem Hpw Hfind Hmatch.
  pose proof (has_body_of_prop h "email" em Hem) as Hb.
  unfold serve, run, app. rewrite Ht.
  unfold login, login_body, incoming.
  rewrite (req_body_present _ h _ _ Hb), bind_ret. simpl. rewrite Hem, Hpw.
  unfold try_catch, bind. rewrite User_findOne_clear by exact Hup.
  rewrite Hfind. unfold await_bcrypt_compare, stored_password, ret.
  rewrite Hmatch. simpl. destruct d; reflexivity.
Qed.

(** What holds of a token sent by a registration or a login. *)
Lemma token_sent (e : env) (h : http_request) (d : database) (tok : string) :
  jwt_contract ->
  jwt_expiry_contract ->
  target h = POST_api_auth_register \/ target h = POST_api_auth_login ->
  result_of (serve cfg e h d) = Responded (mkResponse 200 (Token tok)) ->
  exists u,
    In u (users (db_after (serve cfg e h d))) /\
    (target h = POST_api_auth_register -> u = registered e h) /\
    (target h = POST_api_auth_login ->
     bcrypt_compare (value (prop "password" (body h))) (password u) = true) /\
    let c := claim_issued e (user_id u) in
    id c = user_id u /\ exp c = iat c + 30 * 24 * 60 * 60 /\
    (forall t, iat c <= t < exp c ->
       jwt_verify tok (JWT_SECRET cfg) t = Some c) /\
    (forall t, exp c <= t -> jwt_verify tok (JWT_SECRET cfg) t = None) /\
    (forall e' h' d',
       protected (target h') = true ->
       x_auth_token h' = Some tok ->
       (iat c <= clock_s e' < exp c ->
        serve cfg e' h' d' =
          run e' (behind_auth e' (target h') (mkReq h' (Some c) None)) d') /\
       (exp c <= clock_s e' ->
        serve cfg e' h' d' =
          mkServed (Responded (mkResponse 400 (Msg "Token is not valid")))
            d' [])).
Proof.
  intros Hjwt Hexp Hroute Hres.
  assert (Hu : exists u, In u (users (db_after (serve cfg e h d))) /\
               (target h = POST_api_auth_register -> u = registered e h) /\
               (target h = POST_api_auth_login ->
                bcrypt_compare (value (prop "password" (body h))) (password u)
                  = true) /\
               tok = issued cfg e (user_id u)).
  { destruct Hroute as [Ht | Ht].
    - destruct (register_token e h d tok Ht Hres) as [Htok Husers].
      exists (registered e h). rewrite Husers.
      repeat split; auto.
      + apply in_or_app. right. left. reflexivity.
      + rewrite Ht. discriminate.
    - destruct (login_token e h d tok Ht Hres) as (u & Hin & Htok & Hcmp & Hdb).
      exists u. rewrite Hdb. repeat split; auto.
      rewrite Ht. discriminate. }
  destruct Hu as (u & Hin & Hreg & Hlog & ->).
  exists u. split; [exact Hin |]. split; [exact Hreg |]. split; [exact Hlog |].
  destruct (Hjwt (user_id u) (JWT_SECRET cfg) (clock_s e) expiresIn_30d)
    as (Hne & Hvalid & Hpassed).
  pose proof (Hexp (user_id u) (JWT_SECRET cfg) (clock_s e) expiresIn_30d)
    as Hat.
  assert (Hexpired : forall t, clock_s e + expiresIn_30d <= t ->
            jwt_verify (issued cfg e (user_id u)) (JWT_SECRET cfg) t = None).
  { intros t Ht. destruct (Z.eq_dec t (clock_s e + expiresIn_30d)) as [-> | Hn].
    - exact Hat.
    - apply Hpassed. lia. }
  unfold claim_issued. simpl.
  change (30 * 24 * 60 * 60) with expiresIn_30d.
  split; [reflexivity |]. split; [reflexivity |].
  split; [exact Hvalid |]. split; [exact Hexpired |].
  intros e' h' d' Hp Htok.
  assert (Htruthy : truthy (x_auth_token h') = true).
  { rewrite Htok. simpl. apply negb_true_iff, String.eqb_neq. exact Hne. }
  split; intros Ht'.
  - apply (serve_verified cfg e' h' d' _ Hp Htruthy).
    rewrite Htok. simpl. exact (Hvalid _ Ht').
  - apply (serve_invalid_token cfg e' h' d' Hp Htruthy).
    rewrite Htok. simpl. exact (Hexpired _ Ht').
Qed.

(** C4, amended at the expiration instant.  Under the contract of
    [jsonwebtoken]:
    - a registration that succeeds is answered with a token issued for the
      user it stored, and a login with the address of a stored user and a
      matching password with a token issued for that user;
    - a token sent by a registration or a login carries the identifier of
      the user registered or logged in and an expiry thirty days after its
      issue; with the secret of the server it verifies to that claim at every
      second from its issue that is before its expiry, and [auth] then lets a
      request bearing it through to the handler; at the second of its expiry
      and at every later one it does not verify, and [auth] answers 400. *)
Theorem issued_token_lifetime :
  jwt_contract ->
  jwt_expiry_contract ->
  (forall e h d,
      target h = POST_api_auth_register ->
      all_fields_entered h = true ->
      store_up e ->
      find (fun u => (email u =? value (prop "email" (body h)))%string)
        (users d) = None ->
      password (registered e h) <> "" ->
      result_of (serve cfg e h d) =
        Responded
          (mkResponse 200 (Token (issued cfg e (user_id (registered e h)))))) /\
  (forall e h d em pw u,
      target h = POST_api_auth_login ->
      store_up e ->
      prop "email" (body h) = Some em ->
      prop "password" (body h) = Some pw ->
      find (fun u => (email u =? em)%string) (users d) = Some u ->
      bcrypt_compare pw (password u) = true ->
      result_of (serve cfg e h d) =
        Responded (mkResponse 200 (Token (issued cfg e (user_id u))))) /\
  (forall e h d tok,
      target h = POST_api_auth_register \/ target h = POST_api_auth_login ->
      result_of (serve cfg e h d) = Responded (mkResponse 200 (Token tok)) ->
      exists u,
        In u (users (db_after (serve cfg e h d))) /\
        (target h = POST_api_auth_register -> u = registered e h) /\
        (target h = POST_api_auth_login ->
         bcrypt_compare (value (prop "password" (body h))) (password u)
         = true) /\
        let c := claim_issued e (user_id u) in
        id c = user_id u /\ exp c = iat c + 30 * 24 * 60 * 60 /\
        (forall t, iat c <= t < exp c ->
           jwt_verify tok (JWT_SECRET cfg) t = Some c) /\
        (forall t, exp c <= t -> jwt_verify tok (JWT_SECRET cfg) t = None) /\
        (forall e' h' d',
           protected (target h') = true ->
           x_auth_token h' = Some tok ->
           (iat c <= clock_s e' < exp c ->
            serve cfg e' h' d' =
              run e' (behind_auth e' (target h') (mkReq h' (Some c) None))
                d') /\
           (exp c <= clock_s e' ->
            serve cfg e' h' d' =
              mkServed
                (Responded (mkResponse 400 (Msg "Token is not valid")))
                d' []))).
Proof.
  intros Hjwt Hexp. split; [| split].
  - intros e h d Ht Hall Hup Hfresh Hhash.
    rewrite (register_success cfg e h d Ht Hall Hup Hfresh Hhash).
    reflexivity.
  - intros e h d em pw u Ht Hup Hem Hpw Hfind Hmatch.
    rewrite (login_success e h d em pw u Ht Hup Hem Hpw Hfind Hmatch).
    reflexivity.
  - intros e h d tok. exact (token_sent e h d tok Hjwt Hexp).
Qed.

End Tokens.

(** ** The dashboard *)

Section Dashboard.
Context `{Jwt} `{Bcrypt} `{Runtime}.
Variable cfg : config.

Lemma dashboard_stats_run (e : env) (h : http_request) (d : database)
    (c : claim) (u : User) :
  store_up e ->
  find (fun u => (user_id u =? id c)%string) (users d) = Some u ->
  run e (dashboard_stats (mkReq h (Some c) None)) d =
    mkServed
      (Responded
         (mkResponse 200
            (Stats (firstName u ++ " " ++ lastName u)
               (length (items_of (id c) d))
               (length (dirty_items_of (id c) d))
               (Nat.eqb (length (items_of (id c) d)) 0))))
      d
      [User_findById_call (id c); Item_countDocuments_call (id c) false;
       Item_countDocuments_call (id c) true].
Proof.
  intros Hup Hu.
  unfold run, dashboard_stats, dashboard_stats_body, req_user_id. simpl.
  unfold try_catch, bind, ret. cbv beta iota.
  unfold User_findById, Item_countDocuments, Item_countDocuments_dirty.
  rewrite await_store_clear by exact Hup. simpl.
  rewrite await_store_clear by (simpl; apply clear_tl; exact Hup). simpl.
  rewrite await_store_clear by (simpl; do 2 apply clear_tl; exact Hup). simpl.
  rewrite Hu. simpl. destruct d; reflexivity.
Qed.

Lemma dirty_items_of_owned (i : ObjectId) (d : database) :
  dirty_items_of i d = filter dirty (items_of i d).
Proof.
  unfold dirty_items_of, items_of.
  induction (items d) as [| it l IH]; simpl; [reflexivity |].
  destruct (owned_by i it); simpl; [| exact IH].
  destruct (dirty it); simpl; rewrite IH; reflexivity.
Qed.

(** C5.  For a request to the dashboard authenticated as a stored user, with
    the store up: the response is 200 with [name] the first and the last name
    joined by a space, [totalItems] the number of items the user owns,
    [dirtyItems] the number of those whose [isClean] is false, and
    [isNewUser] true exactly when [totalItems] is zero; a user who owns no
    item gets [isNewUser: true], [totalItems: 0], [dirtyItems: 0]. *)
Theorem dashboard_stats_counts (e : env) (h : http_request) (d : database)
    (i : ObjectId) (u : User) :
  target h = GET_api_dashboard_stats ->
  requester cfg e h = Some i ->
  find (fun u => (user_id u =? i)%string) (users d) = Some u ->
  store_up e ->
  let totalItems := length (items_of i d) in
  let dirtyItems :=
    length (filter (fun it => negb (isClean it)) (items_of i d)) in
  let isNewUser := Nat.eqb totalItems 0 in
  result_of (serve cfg e h d) =
    Responded
      (mkResponse 200
         (Stats (firstName u ++ " " ++ lastName u) totalItems dirtyItems
            isNewUser)) /\
  db_after (serve cfg e h d) = d /\
  (isNewUser = true <-> totalItems = 0%nat) /\
  (items_of i d = [] ->
   result_of (serve cfg e h d) =
     Responded
       (mkResponse 200 (Stats (firstName u ++ " " ++ lastName u) 0 0 true))).
Proof.
  intros Ht Hreq Hu Hup totalItems dirtyItems isNewUser.
  destruct (serve_as cfg e h d i) as (c & Hid & Hserve);
    [rewrite Ht; reflexivity | exact Hreq |].
  subst i. rewrite Ht in Hserve. simpl in Hserve.
  rewrite (dashboard_stats_run e h d c u Hup Hu) in Hserve.
  rewrite Hserve. simpl.
  rewrite dirty_items_of_owned. fold totalItems.
  split; [reflexivity |]. split; [reflexivity |].
  split; [apply Nat.eqb_eq |].
  intros Hnone. subst totalItems. rewrite Hnone. reflexivity.
Qed.

End Dashboard.

(** ** Items *)

Section Items.
Context `{Jwt} `{Bcrypt} `{Runtime}.
Variable cfg : config.

(** The handler behind the gate of [POST /api/items], when the request has
    no image: the first thing to throw is the destructuring of a body that is
    not there, or else the reading of [req.file.path]. *)
Lemma create_item_no_file (e : env) (h : http_request) (d : database)
    (c : claim) :
  image h = None ->
  run e (upload_single e (mkReq h (Some c) None) (create_item e)) d =
    mkServed
      (Responded
         (mkResponse 500
            (Error
               (message
                  match payload h with
                  | Some _ => TypeError "path"
                  | None => CannotDestructure "name"
                  end))))
      d [].
Proof.
  intros Himg. unfold run, upload_single. simpl. rewrite Himg.
  unfold create_item, create_item_body, req_user_id, req_file_path, req_body.
  simpl.
  destruct (payload h); destruct d; reflexivity.
Qed.

(** C10.  A request to [POST /api/items] that passes the gate and carries no
    image part is answered 500 with the message of a [TypeError]: the one
    thrown by reading [req.file.path] when the request has a body, the one
    thrown by destructuring [req.body] when it has none.  The handler has no
    check of its own for the missing image; no store call is made and the
    database is as it was. *)
Theorem create_item_without_image (e : env) (h : http_request) (d : database)
    (i : ObjectId) :
  target h = POST_api_items ->
  requester cfg e h = Some i ->
  image h = None ->
  serve cfg e h d =
    mkServed
      (Responded
         (mkResponse 500
            (Error
               (message
                  match payload h with
                  | Some _ => TypeError "path"
                  | None => CannotDestructure "name"
                  end))))
      d [].
Proof.
  intros Ht Hreq Himg.
  destruct (serve_as cfg e h d i) as (c & Hid & Hserve);
    [rewrite Ht; reflexivity | exact Hreq |].
  rewrite Hserve, Ht. simpl. apply create_item_no_file. exact Himg.
Qed.

(** The handler behind the gate once the image is uploaded and the seasons
    are read as [j]. *)
Lemma create_item_saved (e : env) (h : http_request) (d : database)
    (c : claim) (img url : string) (j : json) (ss : list string) :
  image h = Some img ->
  media_host e img = inr url ->
  (if truthy (prop "seasons" (body h))
   then JSON_parse (value (prop "seasons" (body h))) = inr j
   else j = JArray []) ->
  cast_string_array j = Some ss ->
  Item_invalid_paths (item_fields h (id c) url j) = [] ->
  store_up e ->
  run e (upload_single e (mkReq h (Some c) None) (create_item e)) d =
    mkServed
      (Responded
         (mkResponse 200
            (OneItem (Item_document e (item_fields h (id c) url j) ss))))
      (mkDb (users d)
         (items d ++ [Item_document e (item_fields h (id c) url j) ss]))
      [Item_save_call (id c)].
Proof.
  intros Himg Hurl Hparse Hcast Hvalid Hup.
  unfold run, upload_single. simpl. rewrite Himg, Hurl.
  unfold create_item, create_item_body, req_user_id, req_file_path, req_body,
    multipart_parsed.
  simpl.
  unfold try_catch, bind, ret. cbv beta iota.
  assert (Hj : (if truthy (prop "seasons" (body h))
                then await_JSON_parse (value (prop "seasons" (body h)))
                else fun s => (Ok (JArray []), s)) =
               (fun s => (Ok j, s))).
  { destruct (truthy (prop "seasons" (body h))).
    - unfold await_JSON_parse. rewrite Hparse. reflexivity.
    - rewrite Hparse. reflexivity. }
  rewrite Hj. cbv beta iota.
  fold (item_fields h (id c) url j).
  unfold Item_save. rewrite await_store_clear by exact Hup. simpl.
  rewrite Hvalid, Hcast. reflexivity.
Qed.

Lemma create_item_parse_error (e : env) (h : http_request) (d : database)
    (c : claim) (img url s detail : string) :
  image h = Some img ->
  media_host e img = inr url ->
  prop "seasons" (body h) = Some s ->
  s <> "" ->
  JSON_parse s = inl detail ->
  run e (upload_single e (mkReq h (Some c) None) (create_item e)) d =
    mkServed
      (Responded (mkResponse 500 (Error (message (SyntaxError detail)))))
      d [].
Proof.
  intros Himg Hurl Hs Hne Hparse.
  unfold run, upload_single. simpl. rewrite Himg, Hurl.
  unfold create_item, create_item_body, req_user_id, req_file_path, req_body,
    multipart_parsed.
  simpl. rewrite bind_ret.
  rewrite Hs. simpl. apply String.eqb_neq in Hne. rewrite Hne. simpl.
  unfold try_catch, bind, ret, await_JSON_parse. rewrite Hparse.
  destruct d; reflexivity.
Qed.

(** C6.  For a request to [POST /api/items] that passes the gate as [i] and
    whose image is uploaded to [url]:
    - when the [seasons] field is a non-empty string that [JSON.parse] reads
      as [j], the fields validate and the store is up, the item created has
      for [seasons] what [j] casts to;
    - so, when [JSON.parse] reads an array of strings [l], and casting keeps
      arrays of strings, its [seasons] are [l], in that order;
    - when the field is absent (or empty), its [seasons] are empty;
    - when [JSON.parse] throws, the response is 500 with the message of the
      [SyntaxError], no store call is made and no item is created. *)
Theorem create_item_seasons (e : env) (h : http_request) (d : database)
    (i : ObjectId) (img url : string) :
  target h = POST_api_items ->
  requester cfg e h = Some i ->
  image h = Some img ->
  media_host e img = inr url ->
  (forall s j ss,
      prop "seasons" (body h) = Some s -> s <> "" ->
      JSON_parse s = inr j ->
      cast_string_array j = Some ss ->
      Item_invalid_paths (item_fields h i url j) = [] ->
      store_up e ->
      exists it,
        serve cfg e h d =
          mkServed (Responded (mkResponse 200 (OneItem it)))
            (mkDb (users d) (items d ++ [it])) [Item_save_call i] /\
        userId it = i /\ seasons it = ss) /\
  (forall s l,
      prop "seasons" (body h) = Some s -> s <> "" ->
      JSON_parse s = inr (JArray (map JString l)) ->
      cast_contract ->
      Item_invalid_paths (item_fields h i url (JArray (map JString l))) = [] ->
      store_up e ->
      exists it,
        serve cfg e h d =
          mkServed (Responded (mkResponse 200 (OneItem it)))
            (mkDb (users d) (items d ++ [it])) [Item_save_call i] /\
        userId it = i /\ seasons it = l) /\
  (truthy (prop "seasons" (body h)) = false ->
   cast_contract ->
   Item_invalid_paths (item_fields h i url (JArray [])) = [] ->
   store_up e ->
   exists it,
     serve cfg e h d =
       mkServed (Responded (mkResponse 200 (OneItem it)))
         (mkDb (users d) (items d ++ [it])) [Item_save_call i] /\
     userId it = i /\ seasons it = []) /\
  (forall s detail,
      prop "seasons" (body h) = Some s -> s <> "" ->
      JSON_parse s = inl detail ->
      serve cfg e h d =
        mkServed
          (Responded (mkResponse 500 (Error (message (SyntaxError detail)))))
          d []).
Proof.
  intros Ht Hreq Himg Hurl.
  destruct (serve_as cfg e h d i) as (c & Hid & Hserve);
    [rewrite Ht; reflexivity | exact Hreq |].
  rewrite Hserve, Ht. simpl behind_auth. subst i.
  assert (Hgeneral : forall s j ss,
      prop "seasons" (body h) = Some s -> s <> "" ->
      JSON_parse s = inr j ->
      cast_string_array j = Some ss ->
      Item_invalid_paths (item_fields h (id c) url j) = [] ->
      store_up e ->
      exists it,
        run e (upload_single e (mkReq h (Some c) None) (create_item e)) d =
          mkServed (Responded (mkResponse 200 (OneItem it)))
            (mkDb (users d) (items d ++ [it])) [Item_save_call (id c)] /\
        userId it = id c /\ seasons it = ss).
  { intros s j ss Hs Hne Hparse Hcast Hvalid Hup.
    exists (Item_document e (item_fields h (id c) url j) ss).
    split; [| split; reflexivity].
    apply (create_item_saved e h d c img url j ss); auto.
    rewrite Hs. simpl. apply String.eqb_neq in Hne. rewrite Hne. simpl.
    exact Hparse. }
  split; [exact Hgeneral |]. split; [| split].
  - intros s l Hs Hne Hparse Hcast Hvalid Hup.
    apply (Hgeneral s (JArray (map JString l)) l); auto.
  - intros Hfalsy Hcast Hvalid Hup.
    exists (Item_document e (item_fields h (id c) url (JArray [])) []).
    split; [| split; reflexivity].
    apply (create_item_saved e h d c img url (JArray []) []); auto.
    + rewrite Hfalsy. reflexivity.
    + exact (Hcast []).
  - intros s detail Hs Hne Hparse.
    apply (create_item_parse_error e h d c img url s detail); auto.
Qed.

End Items.

(** ** Listing *)

Section Listing.
Context `{Jwt} `{Bcrypt} `{Runtime}.
Variable cfg : config.

Lemma serve_all_items (evs : list (env * http_request)) (d : database) :
  items (serve_all cfg evs d) = items d ++ flat_map (created cfg) evs.
Proof.
  revert d. induction evs as [| [e h] evs IH]; intros d; simpl.
  - rewrite app_nil_r. reflexivity.
  - rewrite IH, (serve_items cfg), <- app_assoc. reflexivity.
Qed.

Lemma owned_by_spec (i : ObjectId) (it : Item) :
  owned_by i it = true <-> userId it = i.
Proof. unfold owned_by. apply String.eqb_eq. Qed.

(** A request that is not [a]'s creates nothing [a] owns. *)
Lemma created_by_others (a : ObjectId) (eh : env * http_request) :
  requested_by cfg a eh = false ->
  filter (owned_by a) (created cfg eh) = [].
Proof.
  intros Hother. destruct eh as [e h].
  destruct (filter (owned_by a) (created cfg (e, h))) as [| it l] eqn:Hf;
    [reflexivity |].
  assert (Hin : In it (filter (owned_by a) (created cfg (e, h))))
    by (rewrite Hf; left; reflexivity).
  apply filter_In in Hin. destruct Hin as [Hin Hown].
  apply owned_by_spec in Hown.
  destruct (created_owner cfg e h it Hin) as [_ Hreq].
  unfold requested_by in Hother. simpl in Hother.
  rewrite Hreq, Hown, String.eqb_refl in Hother. discriminate.
Qed.

Lemma created_by_requester (a : ObjectId) (evs : list (env * http_request)) :
  filter (owned_by a) (flat_map (created cfg) evs) =
  filter (owned_by a)
    (flat_map (created cfg) (filter (requested_by cfg a) evs)).
Proof.
  induction evs as [| eh evs IH]; simpl; [reflexivity |].
  rewrite filter_app, IH.
  destruct (requested_by cfg a eh) eqn:Hreq; simpl.
  - rewrite filter_app. reflexivity.
  - rewrite (created_by_others a eh Hreq). reflexivity.
Qed.

(** The items of [a] after a sequence of requests are those after [a]'s own
    requests alone. *)
Lemma items_of_own_requests (a : ObjectId) (evs : list (env * http_request))
    (d : database) :
  items_of a (serve_all cfg evs d) =
  items_of a (serve_all cfg (filter (requested_by cfg a) evs) d).
Proof.
  unfold items_of. rewrite !serve_all_items, !filter_app.
  rewrite <- created_by_requester. reflexivity.
Qed.

Lemma list_items_run (e : env) (h : http_request) (d : database) (c : claim) :
  store_up e ->
  run e (list_items (mkReq h (Some c) None)) d =
    mkServed (Responded (mkResponse 200 (Items (items_of (id c) d)))) d
      [Item_find_call (id c)].
Proof.
  intros Hup. unfold run, list_items, req_user_id, Item_find. simpl.
  unfold bind, ret. cbv beta iota.
  rewrite await_store_clear by exact Hup. simpl.
  destruct d; reflexivity.
Qed.

Lemma list_items_as (e : env) (h : http_request) (d : database) (a : ObjectId) :
  target h = GET_api_items ->
  requester cfg e h = Some a ->
  store_up e ->
  serve cfg e h d =
    mkServed (Responded (mkResponse 200 (Items (items_of a d)))) d
      [Item_find_call a].
Proof.
  intros Ht Hreq Hup.
  destruct (serve_as cfg e h d a) as (c & Hid & Hserve);
    [rewrite Ht; reflexivity | exact Hreq |].
  rewrite Hserve, Ht. simpl behind_auth. subst a.
  apply list_items_run. exact Hup.
Qed.

(** C2.  For distinct users [a] and [b] and any sequence of requests served
    before (item creations by both, interleaved in any way, among them): a
    listing authenticated as [a], with the store up, returns exactly the
    items owned by [a]; none of them is owned by [b], and none was created
    by a request of [b]; and the response is the one [a] would get had only
    the requests authenticated as [a] been served. *)
Theorem listing_isolation (a b : ObjectId) (evs : list (env * http_request))
    (d : database) (e : env) (h : http_request) :
  a <> b ->
  target h = GET_api_items ->
  requester cfg e h = Some a ->
  store_up e ->
  let d' := serve_all cfg evs d in
  result_of (serve cfg e h d') =
    Responded (mkResponse 200 (Items (items_of a d'))) /\
  (forall it, In it (items_of a d') -> userId it = a /\ userId it <> b) /\
  (forall eh it,
      In eh evs -> requester cfg (fst eh) (snd eh) = Some b ->
      In it (created cfg eh) -> ~ In it (items_of a d')) /\
  result_of (serve cfg e h d') =
    result_of
      (serve cfg e h (serve_all cfg (filter (requested_by cfg a) evs) d)).
Proof.
  intros Hab Ht Hreq Hup d'.
  assert (Hown : forall it, In it (items_of a d') -> userId it = a).
  { intros it Hin. apply filter_In in Hin. destruct Hin as [_ Hin].
    apply owned_by_spec. exact Hin. }
  split; [| split; [| split]].
  - rewrite (list_items_as e h d' a Ht Hreq Hup). reflexivity.
  - intros it Hin. rewrite (Hown it Hin). auto.
  - intros [e' h'] it _ Hb Hcreated Hin. simpl in Hb.
    destruct (created_owner cfg e' h' it Hcreated) as [_ Hreq'].
    rewrite Hreq' in Hb. inversion Hb as [Hb'].
    rewrite (Hown it Hin) in Hb'. exact (Hab Hb').
  - rewrite (list_items_as e h d' a Ht Hreq Hup).
    rewrite (list_items_as e h _ a Ht Hreq Hup). simpl.
    subst d'. rewrite items_of_own_requests. reflexivity.
Qed.
End Listing.

(** ** Failures *)

Section Failures.
Context `{Jwt} `{Bcrypt} `{Runtime}.
Variable cfg : config.

(** A route whose handler is a [try]/[catch] always answers. *)
Lemma caught_responds (e : env) (h : http_request) (d : database) :
  catches (target h) = true ->
  exists resp, result_of (serve cfg e h d) = Responded resp.
Proof. by_route h; intros Hc; try discriminate; eauto. Qed.

(** A rejected store call ends such a handler in its [catch]. *)
Lemma rejected_call_caught (e : env) (h : http_request) (d : database)
    (detail : string) :
  catches (target h) = true ->
  rejected_call e (serve cfg e h d) = Some detail ->
  result_of (serve cfg e h d) =
    Responded
      (mkResponse 500
         match target h with
         | GET_api_dashboard_stats => Msg "Server Error"
         | _ => Error (message (StoreError detail))
         end).
Proof.
  unfold rejected_call.
  by_route h; intros Hc; try discriminate; congruence.
Qed.

(** What such a route sends with a 500. *)
Lemma status_500_content (e : env) (h : http_request) (d : database)
    (resp : response) :
  catches (target h) = true ->
  result_of (serve cfg e h d) = Responded resp ->
  status resp = 500 ->
  match target h with
  | GET_api_dashboard_stats => sent resp = Msg "Server Error"
  | POST_api_items =>
      (exists err, sent resp = Error (message err)) \/
      (exists detail, sent resp = ErrorPage (UploadError detail))
  | _ => exists err, sent resp = Error (message err)
  end.
Proof.
  by_route h; intros Hc Hr; try discriminate; inversion Hr; subst; simpl;
    try discriminate; eauto.
Qed.

(** What the [try] block of a handler throws, its [catch] answers. *)
Lemma body_throw_caught (body : M response) (c : js_error -> content)
    (s s' : mstate) (err : js_error) :
  body s = (Throw err, s') ->
  try_catch body (fun err => res_status_json 500 (c err)) s =
    (Ok (mkResponse 500 (c err)), s').
Proof.
  intros Hthrow. rewrite (try_catch_throw _ _ s s' err Hthrow). reflexivity.
Qed.

(** C9, as the code has it.  On the four routes whose handler is a
    [try]/[catch] (registration, login, dashboard statistics, item
    creation) the request is always answered; a rejected store call is
    answered 500, with the message of the error on registration, login and
    item creation, and with the fixed text "Server Error" on the dashboard;
    whatever these routes send with a 500 is of that form (on item creation,
    also the page of Express when the upload failed before the handler ran);
    and whatever error the [try] block of one of these handlers throws, the
    handler answers 500, with the message of that error or, on the dashboard,
    with the fixed text. *)
Theorem failures_caught_by_handlers :
  (forall e h d,
      catches (target h) = true ->
      (exists resp, result_of (serve cfg e h d) = Responded resp) /\
      (forall detail,
          rejected_call e (serve cfg e h d) = Some detail ->
          result_of (serve cfg e h d) =
            Responded
              (mkResponse 500
                 match target h with
                 | GET_api_dashboard_stats => Msg "Server Error"
                 | _ => Error (message (StoreError detail))
                 end)) /\
      (forall resp,
          result_of (serve cfg e h d) = Responded resp ->
          status resp = 500 ->
          match target h with
          | GET_api_dashboard_stats => sent resp = Msg "Server Error"
          | POST_api_items =>
              (exists err, sent resp = Error (message err)) \/
              (exists detail, sent resp = ErrorPage (UploadError detail))
          | _ => exists err, sent resp = Error (message err)
          end)) /\
  (forall e r s s' err,
      (register_body cfg e r s = (Throw err, s') ->
       register cfg e r s = (Ok (mkResponse 500 (Error (message err))), s')) /\
      (login_body cfg e r s = (Throw err, s') ->
       login cfg e r s = (Ok (mkResponse 500 (Error (message err))), s')) /\
      (create_item_body e r s = (Throw err, s') ->
       create_item e r s = (Ok (mkResponse 500 (Error (message err))), s')) /\
      (dashboard_stats_body r s = (Throw err, s') ->
       dashboard_stats r s = (Ok (mkResponse 500 (Msg "Server Error")), s'))).
Proof.
  split.
  - intros e h d Hc. split; [| split].
    + exact (caught_responds e h d Hc).
    + intros detail. exact (rejected_call_caught e h d detail Hc).
    + intros resp. exact (status_500_content e h d resp Hc).
  - intros e r s s' err. repeat split; intros Hthrow.
    + exact (body_throw_caught _ (fun err => Error (message err)) s s' err
               Hthrow).
    + exact (body_throw_caught _ (fun err => Error (message err)) s s' err
               Hthrow).
    + exact (body_throw_caught _ (fun err => Error (message err)) s s' err
               Hthrow).
    + exact (body_throw_caught _ (fun _ => Msg "Server Error") s s' err Hthrow).
Qed.

End Failures.

(** * Further properties *)

(** ** Login *)

Section Login.
Context `{Jwt} `{Bcrypt} `{Runtime}.
Variable cfg : config.

(** X1.  A login whose [email] no stored user has is answered 400 with
    "User does not exist", whatever its password, after the one lookup; the
    database is as it was. *)
Theorem login_unknown_email (e : env) (h : http_request) (d : database)
    (em : string) :
  target h = POST_api_auth_login ->
  store_up e ->
  prop "email" (body h) = Some em ->
  find (fun u => (email u =? em)%string) (users d) = None ->
  serve cfg e h d =
    mkServed (Responded (mkResponse 400 (Msg "User does not exist"))) d
      [User_findOne_call (Some em)].
Proof.
  intros Ht Hup Hem Hfind.
  pose proof (has_body_of_prop h "email" em Hem) as Hb.
  unfold serve, run, app. rewrite Ht.
  unfold login, login_body, incoming.
  rewrite (req_body_present _ h _ _ Hb), bind_ret. simpl. rewrite Hem.
  unfold try_catch, bind. rewrite User_findOne_clear by exact Hup.
  rewrite Hfind. simpl. destruct d; reflexivity.
Qed.

(** X2.  A login with the address of a stored user and a password that does
    not match the stored hash is answered 400 with "Invalid credentials";
    the database is as it was. *)
Theorem login_wrong_password (e : env) (h : http_request) (d : database)
    (em pw : string) (u : User) :
  target h = POST_api_auth_login ->
  store_up e ->
  prop "email" (body h) = Some em ->
  prop "password" (body h) = Some pw ->
  find (fun u => (email u =? em)%string) (users d) = Some u ->
  bcrypt_compare pw (password u) = false ->
  serve cfg e h d =
    mkServed (Responded (mkResponse 400 (Msg "Invalid credentials"))) d
      [User_findOne_call (Some em)].
Proof.
  intros Ht Hup Hem Hpw Hfind Hmatch.
  pose proof (has_body_of_prop h "email" em Hem) as Hb.
  unfold serve, run, app. rewrite Ht.
  unfold login, login_body, incoming.
  rewrite (req_body_present _ h _ _ Hb), bind_ret. simpl. rewrite Hem, Hpw.
  unfold try_catch, bind. rewrite User_findOne_clear by exact Hup.
  rewrite Hfind. unfold await_bcrypt_compare, stored_password, ret.
  rewrite Hmatch. simpl. destruct d; reflexivity.
Qed.

(** The first user with a given address, in a collection extended by a user
    with that address. *)
Lemma find_email_appended (em : string) (us : list User) (u : User) :
  find (fun u' => (email u' =? em)%string) us = None ->
  email u = em ->
  find (fun u' => (email u' =? em)%string) (us ++ [u]) = Some u.
Proof.
  intros Hnone Hem. induction us as [| u0 us IH]; simpl in *.
  - rewrite Hem, String.eqb_refl. reflexivity.
  - destruct (email u0 =? em)%string; [discriminate | auto].
Qed.

(** A registration under the conditions [registers]. *)
Lemma registers_serve (e : env) (h : http_request) (d : database) :
  registers e h d ->
  serve cfg e h d =
    mkServed (Responded (mkResponse 200 (Token (issued cfg e (fresh_oid e)))))
      (mkDb (users d ++ [registered e h]) (items d))
      [User_findOne_call (prop "email" (body h));
       User_save_call (registered e h)].
Proof.
  intros (Ht & Hall & Hup & Hfresh & Hhash).
  exact (register_success cfg e h d Ht Hall Hup Hfresh Hhash).
Qed.

(** X3.  Register, then log in: when [bcrypt.compare] accepts a password
    against the hash made of it, a login with the address and the password of
    a registration that succeeded is answered with a token issued for the
    user that registration stored, and leaves the database as the
    registration left it. *)
Theorem login_after_register (e e' : env) (h h' : http_request) (d : database) :
  bcrypt_contract ->
  registers e h d ->
  target h' = POST_api_auth_login ->
  store_up e' ->
  prop "email" (body h') = Some (value (prop "email" (body h))) ->
  prop "password" (body h') = Some (value (prop "password" (body h))) ->
  serve cfg e' h' (db_after (serve cfg e h d)) =
    mkServed
      (Responded (mkResponse 200 (Token (issued cfg e' (fresh_oid e)))))
      (db_after (serve cfg e h d))
      [User_findOne_call (Some (value (prop "email" (body h))))].
Proof.
  intros Hbcrypt Hreg Ht' Hup' Hem' Hpw'.
  rewrite (registers_serve e h d Hreg). simpl db_after.
  destruct Hreg as (_ & _ & _ & Hfresh & _).
  apply (login_success cfg e' h' _ _ _ (registered e h) Ht' Hup' Hem' Hpw').
  - simpl users. apply find_email_appended; [exact Hfresh | reflexivity].
  - apply Hbcrypt.
Qed.

(** A registration with its four fields entered, whose address a stored user
    has, the store up. *)
Lemma register_stored_email (e : env) (h : http_request) (d : database)
    (u : User) :
  target h = POST_api_auth_register ->
  all_fields_entered h = true ->
  store_up e ->
  find (fun u => (email u =? value (prop "email" (body h)))%string) (users d)
  = Some u ->
  serve cfg e h d =
    mkServed (Responded (mkResponse 400 (Msg "User already exists"))) d
      [User_findOne_call (prop "email" (body h))].
Proof.
  intros Ht Hall Hup Hfind.
  assert (Hb : has_body h).
  { destruct (all_fields_entered_truthy h Hall) as (_ & _ & Hem & _).
    exact (has_body_of_truthy h "email" Hem). }
  unfold serve, run, app. rewrite Ht.
  unfold register, register_body, incoming.
  rewrite (req_body_present _ h _ _ Hb), bind_ret. simpl.
  unfold all_fields_entered in Hall. apply negb_true_iff in Hall.
  rewrite Hall. unfold try_catch, bind. cbv beta iota.
  rewrite User_findOne_clear by exact Hup.
  destruct (prop "email" (body h)) as [em |] eqn:Hem.
  - simpl in Hfind. rewrite Hfind. simpl. destruct d; reflexivity.
  - rewrite !orb_false_iff in Hall. simpl in Hall.
    destruct Hall as [[[_ _] Hcontra] _]. discriminate.
Qed.

(** X4.  Register twice: after a registration that succeeded, any
    registration with the same address and its four fields entered, the
    store up, is answered 400 with "User already exists" and stores
    nothing. *)
Theorem register_twice (e e' : env) (h h' : http_request) (d : database) :
  registers e h d ->
  target h' = POST_api_auth_register ->
  all_fields_entered h' = true ->
  store_up e' ->
  value (prop "email" (body h')) = value (prop "email" (body h)) ->
  serve cfg e' h' (db_after (serve cfg e h d)) =
    mkServed (Responded (mkResponse 400 (Msg "User already exists")))
      (db_after (serve cfg e h d))
      [User_findOne_call (prop "email" (body h'))].
Proof.
  intros Hreg Ht' Hall' Hup' Hsame.
  rewrite (registers_serve e h d Hreg). simpl db_after.
  destruct Hreg as (_ & _ & _ & Hfresh & _).
  apply (register_stored_email e' h' _ (registered e h) Ht' Hall' Hup').
  rewrite Hsame. simpl users.
  apply find_email_appended; [exact Hfresh | reflexivity].
Qed.

(** X20.  A login whose body has no [email]: the lookup goes to the store
    with an undefined address, which no user matches; the login is answered
    400 with "User does not exist" whatever the password, and the database
    is as it was. *)
Theorem login_without_email (e : env) (h : http_request) (d : database) :
  target h = POST_api_auth_login ->
  has_body h ->
  store_up e ->
  prop "email" (body h) = None ->
  serve cfg e h d =
    mkServed (Responded (mkResponse 400 (Msg "User does not exist"))) d
      [User_findOne_call None].
Proof.
  intros Ht Hb Hup Hem.
  unfold serve, run, app. rewrite Ht.
  unfold login, login_body, incoming.
  rewrite (req_body_present _ h _ _ Hb), bind_ret. simpl. rewrite Hem.
  unfold try_catch, bind. rewrite User_findOne_clear by exact Hup.
  simpl. destruct d; reflexivity.
Qed.

(** X21.  A login that arrives without a body: destructuring [req.body]
    throws inside the [try], and the [catch] answers 500 with the message of
    the error; no store call is made and the database is as it was. *)
Theorem login_without_body (e : env) (h : http_request) (d : database) :
  target h = POST_api_auth_login ->
  payload h = None ->
  serve cfg e h d =
    mkServed
      (Responded
         (mkResponse 500 (Error (message (CannotDestructure "email")))))
      d [].
Proof.
  intros Ht Hp. unfold serve, run, app. rewrite Ht.
  unfold login, login_body, incoming.
  rewrite (req_body_absent _ h _ _ Hp). simpl. destruct d; reflexivity.
Qed.

End Login.

(** ** What the store holds *)

Section Store.
Context `{Jwt} `{Bcrypt} `{Runtime}.
Variable cfg : config.

(** A request leaves the users as they are, or appends one whose address no
    stored user has. *)
Lemma serve_users_fresh (e : env) (h : http_request) (d : database) :
  users (db_after (serve cfg e h d)) = users d \/
  exists u,
    users (db_after (serve cfg e h d)) = users d ++ [u] /\
    existsb (fun u' => (email u' =? email u)%string) (users d) = false.
Proof. by_route h; eauto. Qed.

Lemma existsb_email_In (em : string) (us : list User) :
  existsb (fun u' => (email u' =? em)%string) us = false ->
  ~ In em (map email us).
Proof.
  induction us as [| u us IH]; simpl; [tauto |].
  intros Hex [Heq | Hin].
  - rewrite Heq, String.eqb_refl in Hex. discriminate.
  - apply orb_false_iff in Hex. destruct Hex as [_ Hex]. exact (IH Hex Hin).
Qed.

Lemma NoDup_appended {A} (l : list A) (x : A) :
  NoDup l -> ~ In x l -> NoDup (l ++ [x]).
Proof.
  induction 1 as [| y l Hy Hl IH]; simpl; intros Hx.
  - constructor; [tauto | constructor].
  - constructor.
    + rewrite in_app_iff. simpl. intros [Hin | [Heq | []]]; [tauto |].
      apply Hx. left. symmetry. exact Heq.
    + apply IH. tauto.
Qed.

Lemma serve_emails_unique (e : env) (h : http_request) (d : database) :
  emails_unique d -> emails_unique (db_after (serve cfg e h d)).
Proof.
  unfold emails_unique. intros Hd.
  destruct (serve_users_fresh e h d) as [-> | (u & -> & Hfresh)];
    [exact Hd |].
  rewrite map_app. simpl.
  apply NoDup_appended; [exact Hd | apply existsb_email_In; exact Hfresh].
Qed.

(** X5.  No sequence of requests makes two users share an address: the
    lookup of the registration and the unique index keep the addresses
    distinct. *)
Theorem emails_stay_unique (evs : list (env * http_request)) (d : database) :
  emails_unique d -> emails_unique (serve_all cfg evs d).
Proof.
  revert d. induction evs as [| [e h] evs IH]; intros d Hd; simpl.
  - exact Hd.
  - apply IH. apply serve_emails_unique. exact Hd.
Qed.

(** A request that is not a creation creates nothing. *)
Lemma created_nothing (e : env) (h : http_request) :
  target h <> POST_api_items -> created cfg (e, h) = [].
Proof.
  intros Ht. destruct (created cfg (e, h)) as [| it l] eqn:Hc; [reflexivity |].
  destruct (created_owner cfg e h it) as [Hcreate _].
  - rewrite Hc. left. reflexivity.
  - contradiction.
Qed.

Lemma serve_all_users (evs : list (env * http_request)) (d : database) :
  exists us, users (serve_all cfg evs d) = users d ++ us.
Proof.
  revert d. induction evs as [| [e h] evs IH]; intros d; simpl.
  - exists []. rewrite app_nil_r. reflexivity.
  - destruct (IH (db_after (serve cfg e h d))) as [us Hus]. rewrite Hus.
    destruct (serve_users cfg e h d) as [-> | [_ ->]].
    + exists us. reflexivity.
    + exists (registered e h :: us). rewrite <- app_assoc. reflexivity.
Qed.

(** X6.  The store only grows.  Only a registration changes the users and
    only an item creation changes the items, so a login, the dashboard, a
    listing and the fallback leave the database as it was; and after any
    sequence of requests the users and the items are those there were
    before, in their order, followed by new ones: nothing is deleted or
    rewritten. *)
Theorem store_only_grows :
  (forall e h d,
      (target h <> POST_api_auth_register ->
       users (db_after (serve cfg e h d)) = users d) /\
      (target h <> POST_api_items ->
       items (db_after (serve cfg e h d)) = items d)) /\
  (forall evs d,
      exists us its,
        users (serve_all cfg evs d) = users d ++ us /\
        items (serve_all cfg evs d) = items d ++ its).
Proof.
  split.
  - intros e h d. split; intros Ht.
    + destruct (serve_users cfg e h d) as [Hsame | [Hreg _]];
        [exact Hsame | contradiction].
    + rewrite (serve_items cfg), (created_nothing e h Ht).
      apply app_nil_r.
  - intros evs d. destruct (serve_all_users evs d) as [us Hus].
    exists us, (flat_map (created cfg) evs).
    split; [exact Hus | apply serve_all_items].
Qed.

(** A document that validates is well formed. *)
Lemma validated_well_formed (e : env) (f : Item_fields) (ss : list string) :
  Item_invalid_paths f = [] -> item_well_formed (Item_document e f ss).
Proof.
  unfold Item_invalid_paths. intros Hvalid.
  apply app_eq_nil in Hvalid. destruct Hvalid as [Hname Hvalid].
  apply app_eq_nil in Hvalid. destruct Hvalid as [Hurl Hvalid].
  apply app_eq_nil in Hvalid. destruct Hvalid as [Hcat Hvalid].
  apply app_eq_nil in Hvalid. destruct Hvalid as [_ Hwarmth].
  unfold item_well_formed. simpl.
  destruct (truthy (f_name f)) eqn:Hn; [| discriminate].
  destruct (f_imageUrl f =? "")%string eqn:Hu; [discriminate |].
  destruct (truthy (f_category f)) eqn:Hc; [| discriminate].
  destruct (warmth_valid (f_warmth f)) eqn:Hw; [| discriminate].
  apply truthy_value in Hn, Hc.
  repeat split.
  - apply String.eqb_neq. exact (proj2 Hn).
  - apply String.eqb_neq. exact Hu.
  - apply String.eqb_neq. exact (proj2 Hc).
  - destruct (f_warmth f) as [| q | neg]; simpl in Hw; try discriminate.
    exists q. apply andb_true_iff in Hw. destruct Hw as [Hlo Hhi].
    split; [reflexivity |]. split; apply Qle_bool_iff; assumption.
Qed.

(** What a request creates is well formed. *)
Lemma created_well_formed (e : env) (h : http_request) (it : Item) :
  In it (created cfg (e, h)) -> item_well_formed it.
Proof.
  change (created cfg (e, h))
    with (items (db_after (serve cfg e h (mkDb [] [])))).
  by_route h; intros Hin; try contradiction.
  all: destruct Hin as [<- | []]; apply validated_well_formed; assumption.
Qed.

Lemma serve_all_well_formed (evs : list (env * http_request)) (d : database) :
  Forall item_well_formed (items d) ->
  Forall item_well_formed (items (serve_all cfg evs d)).
Proof.
  intros Hd. rewrite serve_all_items. apply Forall_app. split; [exact Hd |].
  apply Forall_forall. intros it Hin. apply in_flat_map in Hin.
  destruct Hin as ([e h] & _ & Hin). exact (created_well_formed e h it Hin).
Qed.

(** X7.  Every item the application stores meets its schema: if the items of
    the database are well formed (non-empty [name], [imageUrl] and
    [category], [warmth] a number from 1 to 10, clean, never worn), they still
    are after any sequence of requests. *)
Theorem items_stay_well_formed (evs : list (env * http_request))
    (d : database) :
  Forall item_well_formed (items d) ->
  Forall item_well_formed (items (serve_all cfg evs d)).
Proof.
  revert d. induction evs as [| [e h] evs IH]; intros d Hd; simpl.
  - exact Hd.
  - apply IH. rewrite (serve_items cfg). apply Forall_app. split; [exact Hd |].
    apply Forall_forall. intros it Hin. exact (created_well_formed e h it Hin).
Qed.

Lemma no_dirty_items (i : ObjectId) (d : database) :
  Forall item_well_formed (items d) -> dirty_items_of i d = [].
Proof.
  unfold dirty_items_of. induction 1 as [| it l Hit Hl IH]; simpl.
  - reflexivity.
  - destruct Hit as (_ & _ & _ & _ & Hclean & _).
    unfold dirty. rewrite Hclean, andb_false_r. exact IH.
Qed.

(** X8.  No route marks an item dirty: starting from well-formed items, after
    any sequence of requests the dashboard of a stored user reports
    [dirtyItems: 0]. *)
Theorem dashboard_never_dirty (evs : list (env * http_request)) (d : database)
    (e : env) (h : http_request) (i : ObjectId) (u : User) :
  Forall item_well_formed (items d) ->
  target h = GET_api_dashboard_stats ->
  requester cfg e h = Some i ->
  store_up e ->
  find (fun u => (user_id u =? i)%string) (users (serve_all cfg evs d))
  = Some u ->
  result_of (serve cfg e h (serve_all cfg evs d)) =
    Responded
      (mkResponse 200
         (Stats (firstName u ++ " " ++ lastName u)
            (length (items_of i (serve_all cfg evs d))) 0
            (Nat.eqb (length (items_of i (serve_all cfg evs d))) 0))).
Proof.
  intros Hd Ht Hreq Hup Hu.
  destruct (serve_as cfg e h (serve_all cfg evs d) i) as (c & Hid & Hserve);
    [rewrite Ht; reflexivity | exact Hreq |].
  subst i. rewrite Hserve, Ht. simpl behind_auth.
  rewrite (dashboard_stats_run e h _ c u Hup Hu). simpl.
  rewrite (no_dirty_items (id c) _ (serve_all_well_formed evs d Hd)).
  reflexivity.
Qed.

End Store.

(** ** Items, once created *)

Section Wardrobe.
Context `{Jwt} `{Bcrypt} `{Runtime}.
Variable cfg : config.

(** A creation under the conditions [creates]. *)
Lemma creates_serve (e : env) (h : http_request) (d : database)
    (i : ObjectId) (it : Item) :
  creates cfg e h i it ->
  serve cfg e h d =
    mkServed (Responded (mkResponse 200 (OneItem it)))
      (mkDb (users d) (items d ++ [it])) [Item_save_call i] /\
  userId it = i /\ isClean it = true.
Proof.
  intros (Ht & Hreq & Hup & img & url & j & ss & Himg & Hurl & Hparse & Hcast
          & Hvalid & ->).
  destruct (serve_as cfg e h d i) as (c & Hid & Hserve);
    [rewrite Ht; reflexivity | exact Hreq |].
  subst i. rewrite Hserve, Ht. simpl behind_auth.
  split; [| split; reflexivity].
  exact (create_item_saved e h d c img url j ss Himg Hurl Hparse Hcast Hvalid
           Hup).
Qed.

Lemma items_of_appended (i : ObjectId) (d : database) (it : Item) :
  userId it = i ->
  items_of i (mkDb (users d) (items d ++ [it])) = items_of i d ++ [it].
Proof.
  intros Hown. unfold items_of. simpl. rewrite filter_app. simpl.
  unfold owned_by at 2. rewrite Hown, String.eqb_refl. reflexivity.
Qed.

(** X9.  Create, then list: after a creation by [i] that stored the item
    [it], a listing authenticated as [i], the store up, returns the items [i]
    owned before, in their order, followed by [it]. *)
Theorem list_after_create (e e' : env) (h h' : http_request) (d : database)
    (i : ObjectId) (it : Item) :
  creates cfg e h i it ->
  target h' = GET_api_items ->
  requester cfg e' h' = Some i ->
  store_up e' ->
  result_of (serve cfg e' h' (db_after (serve cfg e h d))) =
    Responded (mkResponse 200 (Items (items_of i d ++ [it]))).
Proof.
  intros Hcreates Ht' Hreq' Hup'.
  destruct (creates_serve e h d i it Hcreates) as (-> & Hown & _).
  simpl db_after.
  rewrite (list_items_as cfg e' h' _ i Ht' Hreq' Hup'). simpl.
  rewrite (items_of_appended i d it Hown). reflexivity.
Qed.

(** X10.  Create, then look at the dashboard: after a creation by the stored
    user [i], the dashboard of [i] counts one item more than [i] owned before
    and as many dirty ones, and [isNewUser] is false. *)
Theorem dashboard_after_create (e e' : env) (h h' : http_request)
    (d : database) (i : ObjectId) (it : Item) (u : User) :
  creates cfg e h i it ->
  target h' = GET_api_dashboard_stats ->
  requester cfg e' h' = Some i ->
  store_up e' ->
  find (fun u => (user_id u =? i)%string) (users d) = Some u ->
  result_of (serve cfg e' h' (db_after (serve cfg e h d))) =
    Responded
      (mkResponse 200
         (Stats (firstName u ++ " " ++ lastName u)
            (S (length (items_of i d)))
            (length (filter (fun it => negb (isClean it)) (items_of i d)))
            false)).
Proof.
  intros Hcreates Ht' Hreq' Hup' Hu.
  destruct (creates_serve e h d i it Hcreates) as (-> & Hown & Hclean).
  simpl db_after.
  destruct (serve_as cfg e' h' (mkDb (users d) (items d ++ [it])) i)
    as (c & Hid & Hserve); [rewrite Ht'; reflexivity | exact Hreq' |].
  rewrite Hserve, Ht'. simpl behind_auth.
  rewrite <- Hid in Hu, Hown |- *.
  rewrite (dashboard_stats_run e' h' (mkDb (users d) (items d ++ [it])) c u
             Hup' Hu).
  simpl.
  rewrite (dirty_items_of_owned (id c)).
  rewrite (items_of_appended (id c) d it Hown).
  rewrite filter_app, !length_app. simpl.
  unfold dirty at 2. rewrite Hclean. simpl.
  rewrite !Nat.add_1_r, Nat.add_0_r. reflexivity.
Qed.

(** X11.  The dashboard for a token whose user is not stored: the three
    store calls are made, reading [firstName] of [null] throws, and the
    [catch] answers 500 with "Server Error"; the database is as it was. *)
Theorem dashboard_unknown_user (e : env) (h : http_request) (d : database)
    (i : ObjectId) :
  target h = GET_api_dashboard_stats ->
  requester cfg e h = Some i ->
  store_up e ->
  find (fun u => (user_id u =? i)%string) (users d) = None ->
  serve cfg e h d =
    mkServed (Responded (mkResponse 500 (Msg "Server Error"))) d
      [User_findById_call i; Item_countDocuments_call i false;
       Item_countDocuments_call i true].
Proof.
  intros Ht Hreq Hup Hnone.
  destruct (serve_as cfg e h d i) as (c & Hid & Hserve);
    [rewrite Ht; reflexivity | exact Hreq |].
  subst i. rewrite Hserve, Ht. simpl behind_auth.
  unfold run, dashboard_stats, dashboard_stats_body, req_user_id. simpl.
  unfold try_catch, bind, ret. cbv beta iota.
  unfold User_findById, Item_countDocuments, Item_countDocuments_dirty.
  rewrite await_store_clear by exact Hup. simpl.
  rewrite await_store_clear by (simpl; apply clear_tl; exact Hup). simpl.
  rewrite await_store_clear by (simpl; do 2 apply clear_tl; exact Hup). simpl.
  rewrite Hnone. simpl. destruct d; reflexivity.
Qed.

(** X12.  A creation that fails validation: when the request passes the gate
    as [i], its image uploads and its seasons are read, but [name] or
    [category] is missing or empty, or [warmth] is not a number from 1 to 10,
    [save] is attempted once and refused, the response is 500 with the
    message of the validation error naming the failing paths, and nothing is
    stored. *)
Theorem create_item_invalid (e : env) (h : http_request) (d : database)
    (i : ObjectId) (img url : string) (j : json) :
  target h = POST_api_items ->
  requester cfg e h = Some i ->
  store_up e ->
  image h = Some img ->
  media_host e img = inr url ->
  (if truthy (prop "seasons" (body h))
   then JSON_parse (value (prop "seasons" (body h))) = inr j
   else j = JArray []) ->
  truthy (prop "name" (body h)) = false \/
  truthy (prop "category" (body h)) = false \/
  warmth_valid (Number_ (prop "warmth" (body h))) = false ->
  Item_invalid_paths (item_fields h i url j) <> [] /\
  serve cfg e h d =
    mkServed
      (Responded
         (mkResponse 500
            (Error
               (message
                  (ValidationError "Item"
                     (Item_invalid_paths (item_fields h i url j)))))))
      d [Item_save_call i].
Proof.
  intros Ht Hreq Hup Himg Hurl Hparse Hbad.
  assert (Hpaths : Item_invalid_paths (item_fields h i url j) <> []).
  { unfold Item_invalid_paths, item_fields. simpl. intros Hnil.
    apply app_eq_nil in Hnil. destruct Hnil as [Hname Hnil].
    apply app_eq_nil in Hnil. destruct Hnil as [_ Hnil].
    apply app_eq_nil in Hnil. destruct Hnil as [Hcat Hnil].
    apply app_eq_nil in Hnil. destruct Hnil as [_ Hwarmth].
    destruct Hbad as [Hb | [Hb | Hb]]; rewrite Hb in *; discriminate. }
  split; [exact Hpaths |].
  destruct (serve_as cfg e h d i) as (c & Hid & Hserve);
    [rewrite Ht; reflexivity | exact Hreq |].
  subst i. rewrite Hserve, Ht. simpl behind_auth.
  unfold run, upload_single. simpl. rewrite Himg, Hurl.
  unfold create_item, create_item_body, req_user_id, req_file_path, req_body,
    multipart_parsed.
  simpl. unfold try_catch, bind, ret. cbv beta iota.
  assert (Hj : (if truthy (prop "seasons" (body h))
                then await_JSON_parse (value (prop "seasons" (body h)))
                else fun s => (Ok (JArray []), s)) =
               (fun s => (Ok j, s))).
  { destruct (truthy (prop "seasons" (body h))).
    - unfold await_JSON_parse. rewrite Hparse. reflexivity.
    - rewrite Hparse. reflexivity. }
  rewrite Hj. cbv beta iota.
  fold (item_fields h (id c) url j).
  unfold Item_save. rewrite await_store_clear by exact Hup. simpl.
  destruct (Item_invalid_paths (item_fields h (id c) url j)) as [| p ps];
    [contradiction |].
  simpl. destruct d; reflexivity.
Qed.

(** X13.  A creation whose upload fails: when the request passes the gate and
    the media host refuses its image, the handler never runs; Express answers
    500 for the error of the upload, no store call is made and nothing is
    stored. *)
Theorem create_item_upload_failed (e : env) (h : http_request) (d : database)
    (i : ObjectId) (img detail : string) :
  target h = POST_api_items ->
  requester cfg e h = Some i ->
  image h = Some img ->
  media_host e img = inl detail ->
  serve cfg e h d =
    mkServed (Responded (mkResponse 500 (ErrorPage (UploadError detail)))) d
      [].
Proof.
  intros Ht Hreq Himg Hfail.
  destruct (serve_as cfg e h d i) as (c & Hid & Hserve);
    [rewrite Ht; reflexivity | exact Hreq |].
  rewrite Hserve, Ht. simpl behind_auth.
  unfold run, upload_single. simpl. rewrite Himg, Hfail.
  destruct d; reflexivity.
Qed.

(** X14.  A listing whose store call is rejected: the handler of
    [GET /api/items] has no [try], so its promise rejects with the error of
    the store and the handler sends no response; the database is as it
    was. *)
Theorem list_items_rejected (e : env) (h : http_request) (d : database)
    (i : ObjectId) (detail : string) (fs : list (option string)) :
  target h = GET_api_items ->
  requester cfg e h = Some i ->
  store_faults e = Some detail :: fs ->
  serve cfg e h d =
    mkServed (Unhandled (StoreError detail)) d [Item_find_call i].
Proof.
  intros Ht Hreq Hfault.
  destruct (serve_as cfg e h d i) as (c & Hid & Hserve);
    [rewrite Ht; reflexivity | exact Hreq |].
  subst i. rewrite Hserve, Ht. simpl behind_auth.
  unfold run, list_items, req_user_id, Item_find. simpl.
  unfold bind, ret. cbv beta iota.
  rewrite (await_store_fault _ _ _ detail fs) by exact Hfault.
  simpl. destruct d; reflexivity.
Qed.

End Wardrobe.

(** ** Across the routes *)

Section Routes.
Context `{Jwt} `{Bcrypt} `{Runtime}.
Variable cfg : config.

Lemma find_id_appended (i : ObjectId) (us : list User) (u : User) :
  find (fun u' => (user_id u' =? i)%string) us = None ->
  user_id u = i ->
  find (fun u' => (user_id u' =? i)%string) (us ++ [u]) = Some u.
Proof.
  intros Hnone Hid. induction us as [| u0 us IH]; simpl in *.
  - rewrite Hid, String.eqb_refl. reflexivity.
  - destruct (user_id u0 =? i)%string; [discriminate | auto].
Qed.

(** X15.  Register, then look at the dashboard: under the contract of
    [jsonwebtoken], when a registration succeeded with an [_id] no stored
    user and no stored item bore, the dashboard requested with the token it
    sent, before the token expires and with the store up, shows the first
    and last name of the registration, no item, and [isNewUser: true]. *)
Theorem dashboard_after_register (e e' : env) (h h' : http_request)
    (d : database) :
  jwt_contract ->
  registers e h d ->
  find (fun u => (user_id u =? fresh_oid e)%string) (users d) = None ->
  items_of (fresh_oid e) d = [] ->
  target h' = GET_api_dashboard_stats ->
  x_auth_token h' = Some (issued cfg e (fresh_oid e)) ->
  clock_s e <= clock_s e' < clock_s e + expiresIn_30d ->
  store_up e' ->
  result_of (serve cfg e' h' (db_after (serve cfg e h d))) =
    Responded
      (mkResponse 200
         (Stats
            (value (prop "firstName" (body h)) ++ " "
             ++ value (prop "lastName" (body h)))
            0 0 true)).
Proof.
  intros Hjwt Hreg Hnew Hnone Ht' Htok Hclock Hup'.
  rewrite (registers_serve cfg e h d Hreg). simpl db_after.
  destruct (Hjwt (fresh_oid e) (JWT_SECRET cfg) (clock_s e) expiresIn_30d)
    as (Hne & Hvalid & _).
  set (c := mkClaim (fresh_oid e) (clock_s e) (clock_s e + expiresIn_30d)).
  set (d' := mkDb (users d ++ [registered e h]) (items d)).
  assert (Hp : protected (target h') = true) by (rewrite Ht'; reflexivity).
  assert (Htruthy : truthy (x_auth_token h') = true).
  { rewrite Htok. simpl. apply negb_true_iff, String.eqb_neq. exact Hne. }
  assert (Hverify :
            jwt_verify (value (x_auth_token h')) (JWT_SECRET cfg) (clock_s e')
            = Some c).
  { rewrite Htok. simpl. exact (Hvalid _ Hclock). }
  rewrite (serve_verified cfg e' h' d' c Hp Htruthy Hverify), Ht'.
  simpl behind_auth.
  assert (Hu : find (fun u => (user_id u =? id c)%string) (users d')
               = Some (registered e h)).
  { simpl. apply find_id_appended; [exact Hnew | reflexivity]. }
  rewrite (dashboard_stats_run e' h' d' c (registered e h) Hup' Hu). simpl.
  rewrite (dirty_items_of_owned (fresh_oid e) d').
  change (items_of (fresh_oid e) d') with (items_of (fresh_oid e) d).
  rewrite Hnone. reflexivity.
Qed.

(** X16.  No retries: a request awaits at most two store calls on a
    registration, three on the dashboard, one on a login, an item creation or
    a listing, and none anywhere else, whatever the store answers. *)
Theorem store_calls_bounded (e : env) (h : http_request) (d : database) :
  (length (calls (serve cfg e h d)) <= store_calls_at_most (target h))%nat.
Proof. by_route h; simpl; lia. Qed.

(** X17.  Only the protected routes read the token: a registration, a login
    and the fallback are served the same whatever [x-auth-token] header the
    request carries. *)
Theorem unprotected_ignore_token (e : env) (h : http_request) (d : database)
    (t : jsfield) :
  protected (target h) = false ->
  serve cfg e (with_token t h) d = serve cfg e h d.
Proof.
  unfold serve, app, with_token. simpl target.
  destruct (target h); simpl; intros Hp; try discriminate; reflexivity.
Qed.

(** X18.  A registration with an empty field: when [firstName], [lastName],
    [email] or [password] is the empty string, the registration is answered
    400 with "Please enter all fields", as when the field is missing; no
    store call is made and the database is as it was. *)
Theorem register_empty_field (e : env) (h : http_request) (d : database) :
  target h = POST_api_auth_register ->
  prop "firstName" (body h) = Some "" \/ prop "lastName" (body h) = Some "" \/
  prop "email" (body h) = Some "" \/ prop "password" (body h) = Some "" ->
  serve cfg e h d =
    mkServed (Responded (mkResponse 400 (Msg "Please enter all fields"))) d [].
Proof.
  intros Ht Hempty.
  assert (Hb : has_body h).
  { destruct Hempty as [Hk | [Hk | [Hk | Hk]]];
      exact (has_body_of_prop h _ _ Hk). }
  unfold serve, run, app. rewrite Ht.
  rewrite (register_not_all_fields cfg e h _ Hb); [reflexivity |].
  unfold all_fields_entered.
  destruct Hempty as [-> | [-> | [-> | ->]]]; simpl;
    rewrite ?orb_true_r; reflexivity.
Qed.

End Routes.

(** * The properties on the reference instance *)

Import Reference.

Lemma get_put_pos (p : positive) (rest : string) :
  get_pos (put_pos p rest) = Some (p, rest).
Proof.
  induction p as [p IH | p IH |]; simpl; try rewrite IH; reflexivity.
Qed.

Lemma get_put_Z (z : Z) (rest : string) : get_Z (put_Z z rest) = Some (z, rest).
Proof. destruct z; simpl; try rewrite get_put_pos; reflexivity. Qed.

Lemma split_at_append (a b : string) :
  split_at (String.length a) (a ++ b) = Some (a, b).
Proof.
  induction a as [| c a IH]; simpl.
  - destruct b; reflexivity.
  - rewrite IH. reflexivity.
Qed.

Lemma verify_sign (i key : string) (t ttl t' : Z) :
  verify (sign i key t ttl) key t' =
    if t + ttl <=? t' then None else Some (mkClaim i t (t + ttl)).
Proof.
  unfold verify, sign. rewrite !get_put_Z, Nat2Z.id, split_at_append.
  rewrite String.eqb_refl. reflexivity.
Qed.

(** The reference tokens meet the contract. *)
Lemma reference_jwt_contract : jwt_contract.
Proof.
  intros i key t ttl. split; [| split].
  - simpl. unfold sign. destruct t; discriminate.
  - intros t' Ht'. simpl. rewrite verify_sign.
    destruct (Z.leb_spec (t + ttl) t'); [lia | reflexivity].
  - intros t' Ht'. simpl. rewrite verify_sign.
    destruct (Z.leb_spec (t + ttl) t'); [reflexivity | lia].
Qed.

(** The reference tokens are refused at the second of their expiry. *)
Lemma reference_jwt_expiry_contract : jwt_expiry_contract.
Proof.
  intros i key t ttl. simpl. rewrite verify_sign, Z.leb_refl. reflexivity.
Qed.

Lemma strings_of_strings (l : list string) :
  strings_of (map JString l) = Some l.
Proof. induction l as [| s l IH]; simpl; [| rewrite IH]; reflexivity. Qed.

(** The reference casting meets the contract. *)
Lemma reference_cast_contract : cast_contract.
Proof. intros l. exact (strings_of_strings l). Qed.

(** ** The gate *)

Lemma auth_gate_witness :
  let e := Sample.env_at 5000 "x" in
  serve Sample.cfg e (mkHttp GET_api_items None [] None) Sample.wardrobe =
    mkServed (Responded (mkResponse 401 (Msg "No token, authorization denied")))
      Sample.wardrobe [] /\
  serve Sample.cfg e (Sample.dashboard "not.a.token") Sample.wardrobe =
    mkServed (Responded (mkResponse 400 (Msg "Token is not valid")))
      Sample.wardrobe [] /\
  serve Sample.cfg e (Sample.listing (Sample.token_for "u2" 0))
    Sample.wardrobe =
    mkServed (Responded (mkResponse 200 (Items [Sample.scarf])))
      Sample.wardrobe [Item_find_call "u2"].
Proof.
  intros e. split; [| split].
  - exact (auth_gate Sample.cfg e (mkHttp GET_api_items None [] None)
             Sample.wardrobe eq_refl).
  - exact (auth_gate Sample.cfg e (Sample.dashboard "not.a.token")
             Sample.wardrobe eq_refl).
  - exact (auth_gate Sample.cfg e (Sample.listing (Sample.token_for "u2" 0))
             Sample.wardrobe eq_refl).
Defined.

(** A header that is present and empty carries a token that does not verify,
    and is answered 401, not 400. *)
Lemma auth_gate_empty_header :
  x_auth_token (mkHttp GET_api_items (Some "") [] None) = Some "" /\
  jwt_verify "" (JWT_SECRET Sample.cfg) (clock_s (Sample.env_at 5000 "x"))
  = None /\
  result_of
    (serve Sample.cfg (Sample.env_at 5000 "x")
       (mkHttp GET_api_items (Some "") [] None) Sample.wardrobe) =
    Responded (mkResponse 401 (Msg "No token, authorization denied")) /\
  result_of
    (serve Sample.cfg (Sample.env_at 5000 "x")
       (mkHttp GET_api_items (Some "") [] None) Sample.wardrobe) <>
    Responded (mkResponse 400 (Msg "Token is not valid")).
Proof.
  repeat split; try reflexivity. vm_compute. discriminate.
Qed.

(** ** Registration *)

Lemma register_without_body_witness :
  let h := Http POST_api_auth_register None None None in
  serve Sample.cfg (Sample.env_at 5000 "u3") h Sample.two_users =
    mkServed
      (Responded
         (mkResponse 500
            (Error
               ("Cannot destructure property 'firstName' of 'req.body' "
                ++ "as it is undefined."))))
      Sample.two_users [].
Proof.
  intros h.
  exact (proj1 (proj2
           (register_without_body Sample.cfg (Sample.env_at 5000 "u3") h
              Sample.two_users eq_refl eq_refl))).
Defined.

Lemma register_missing_field_witness :
  let h :=
    mkHttp POST_api_auth_register None
      [("firstName", "Cy"); ("lastName", "Dee"); ("email", "cy@example.org")]
      None in
  serve Sample.cfg (Sample.env_at 5000 "u3") h Sample.two_users =
    mkServed (Responded (mkResponse 400 (Msg "Please enter all fields")))
      Sample.two_users [].
Proof.
  intros h.
  exact (register_missing_field Sample.cfg (Sample.env_at 5000 "u3") h
           Sample.two_users eq_refl eq_refl
           (or_intror (or_intror (or_intror eq_refl)))).
Defined.

Lemma register_duplicate_email_witness :
  let e := Sample.env_at 5000 "u3" in
  let h := Sample.registration "Ada" "Byron" "ada@example.org" "engine" in
  db_after (serve Sample.cfg e h Sample.two_users) = Sample.two_users /\
  serve Sample.cfg e h Sample.two_users =
    mkServed (Responded (mkResponse 400 (Msg "User already exists")))
      Sample.two_users [User_findOne_call (Some "ada@example.org")].
Proof.
  intros e h.
  destruct (register_duplicate_email Sample.cfg e h Sample.two_users
              "ada@example.org" eq_refl eq_refl
              (ex_intro _ Sample.ada (conj (or_introl eq_refl) eq_refl)))
    as [Hdb Hresp].
  split; [exact Hdb | exact (Hresp eq_refl eq_refl)].
Defined.

(** ** Passwords *)

Lemma two_users_hashed : passwords_hashed Sample.two_users.
Proof.
  repeat constructor; simpl.
  - exists "analytical", "entropy". reflexivity.
  - exists "packets", "entropy". reflexivity.
Qed.

(** Two passwords the reference hash does not tell apart. *)
Lemma same_digest_sample :
  same_digest (Sample.env_at 5000 "u3") Sample.two_users "0b" "Oa".
Proof.
  split; [reflexivity |]. split; [reflexivity |].
  intros u [<- | [<- | []]]; reflexivity.
Qed.

Lemma password_only_hashed_witness :
  let e := Sample.env_at 5000 "u3" in
  let h := Sample.registration "Cy" "Dee" "cy@example.org" "0b" in
  let cy :=
    mkUser "u3" "Cy" "Dee" "cy@example.org"
      (bcrypt_hash "0b" (bcrypt_genSalt 10 "entropy")) "New Delhi, India" in
  let later := Sample.dashboard (Sample.token_for "u3" 5) in
  serve Sample.cfg e h Sample.two_users =
    mkServed (Responded (mkResponse 200 (Token (Sample.token_for "u3" 5))))
      (mkDb [Sample.ada; Sample.bob; cy] [])
      [User_findOne_call (Some "cy@example.org"); User_save_call cy] /\
  passwords_hashed (db_after (serve Sample.cfg e h Sample.two_users)) /\
  "0b" <> "Oa" /\
  serve Sample.cfg e (with_password "0b" h) Sample.two_users =
  serve Sample.cfg e (with_password "Oa" h) Sample.two_users /\
  serve Sample.cfg e later
    (serve_all Sample.cfg [(e, with_password "0b" h)] Sample.two_users) =
  serve Sample.cfg e later
    (serve_all Sample.cfg [(e, with_password "Oa" h)] Sample.two_users) /\
  result_of (serve Sample.cfg e (with_password "s3same" h) Sample.empty_db) =
  result_of (serve Sample.cfg e (with_password "0pen" h) Sample.empty_db).
Proof.
  intros e h cy later.
  destruct (password_only_hashed Sample.cfg)
    as (Hstored & Hinv & Hsame & Hlater & Hhidden).
  split; [| split; [| split; [| split; [| split]]]].
  - apply (Hstored e h Sample.two_users); try reflexivity.
    apply String.eqb_neq. reflexivity.
  - apply Hinv. exact two_users_hashed.
  - discriminate.
  - apply Hsame. exact same_digest_sample.
  - apply (Hlater e h Sample.two_users "0b" "Oa" [] e later).
    exact same_digest_sample.
  - apply Hhidden. repeat split; try reflexivity.
    intros u [].
Defined.

(** ** Tokens *)

Lemma issued_token_lifetime_witness :
  let e := Sample.env_at 5000 "u3" in
  let h := Sample.registration "Cy" "Dee" "cy@example.org" "s3same" in
  let tok := Sample.token_for "u3" 5 in
  let c := mkClaim "u3" 5 2592005 in
  result_of (serve Sample.cfg e h Sample.two_users) =
    Responded (mkResponse 200 (Token tok)) /\
  jwt_verify tok (JWT_SECRET Sample.cfg) 5 = Some c /\
  jwt_verify tok (JWT_SECRET Sample.cfg) 2592004 = Some c /\
  jwt_verify tok (JWT_SECRET Sample.cfg) 2592005 = None /\
  jwt_verify tok (JWT_SECRET Sample.cfg) 2592006 = None /\
  serve Sample.cfg (Sample.env_at 2592005000 "x") (Sample.listing tok)
    Sample.wardrobe =
    mkServed (Responded (mkResponse 400 (Msg "Token is not valid")))
      Sample.wardrobe [].
Proof.
  intros e h tok c.
  destruct (issued_token_lifetime Sample.cfg reference_jwt_contract
              reference_jwt_expiry_contract)
    as (Hregister & _ & Hsent).
  assert (Hhash : password (registered e h) <> "")
    by (apply String.eqb_neq; reflexivity).
  pose proof (Hregister e h Sample.two_users eq_refl eq_refl eq_refl eq_refl
                Hhash) as Htok.
  destruct (Hsent e h Sample.two_users tok (or_introl eq_refl) Htok)
    as (u & _ & Hu & _ & _ & _ & Hvalid & Hexpired & Hgate).
  rewrite (Hu eq_refl) in Hvalid, Hexpired, Hgate.
  split; [exact Htok |]. split; [| split; [| split; [| split]]].
  - apply Hvalid. change (5 <= 5 < 2592005). lia.
  - apply Hvalid. change (5 <= 2592004 < 2592005). lia.
  - apply Hexpired. change (2592005 <= 2592005). lia.
  - apply Hexpired. change (2592005 <= 2592006). lia.
  - apply (Hgate (Sample.env_at 2592005000 "x") (Sample.listing tok)
             Sample.wardrobe eq_refl eq_refl).
    change (2592005 <= 2592005). lia.
Defined.

(** A token is refused at its expiration instant.  The registration of Cy,
    at second 5, is answered with a token that expires at second 2592005; it
    verifies at second 2592004; at second 2592005, the expiration instant, it
    does not verify, and a listing that bears it is answered 400. *)
Lemma token_refused_at_expiry :
  result_of
    (serve Sample.cfg (Sample.env_at 5000 "u3")
       (Sample.registration "Cy" "Dee" "cy@example.org" "s3same")
       Sample.two_users) =
    Responded (mkResponse 200 (Token (Sample.token_for "u3" 5))) /\
  jwt_verify (Sample.token_for "u3" 5) (JWT_SECRET Sample.cfg) 2592004 =
    Some (mkClaim "u3" 5 (5 + 30 * 24 * 60 * 60)) /\
  5 + 30 * 24 * 60 * 60 = 2592005 /\
  jwt_verify (Sample.token_for "u3" 5) (JWT_SECRET Sample.cfg) 2592005 =
    None /\
  clock_s (Sample.env_at 2592005000 "x") = 2592005 /\
  serve Sample.cfg (Sample.env_at 2592005000 "x")
    (Sample.listing (Sample.token_for "u3" 5)) Sample.wardrobe =
    mkServed (Responded (mkResponse 400 (Msg "Token is not valid")))
      Sample.wardrobe [].
Proof. repeat split; reflexivity. Qed.

(** ** The dashboard *)

Lemma dashboard_stats_counts_witness :
  let e := Sample.env_at 5000 "x" in
  result_of
    (serve Sample.cfg e (Sample.dashboard (Sample.token_for "u1" 0))
       Sample.wardrobe) =
    Responded (mkResponse 200 (Stats "Ada Lovelace" 2 1 false)) /\
  result_of
    (serve Sample.cfg e (Sample.dashboard (Sample.token_for "u1" 0))
       Sample.two_users) =
    Responded (mkResponse 200 (Stats "Ada Lovelace" 0 0 true)).
Proof.
  intros e. split.
  - exact (proj1 (dashboard_stats_counts Sample.cfg e
                    (Sample.dashboard (Sample.token_for "u1" 0))
                    Sample.wardrobe "u1" Sample.ada
                    eq_refl eq_refl eq_refl eq_refl)).
  - exact (proj2 (proj2 (proj2
             (dashboard_stats_counts Sample.cfg e
                (Sample.dashboard (Sample.token_for "u1" 0))
                Sample.two_users "u1" Sample.ada
                eq_refl eq_refl eq_refl eq_refl))) eq_refl).
Defined.

(** ** Items *)

Lemma create_item_without_image_witness :
  let e := Sample.env_at 5000 "i4" in
  let h :=
    Sample.creation (Sample.token_for "u1" 0) "Hat" "accessories"
      Sample.summer_fall "3" None in
  serve Sample.cfg e h Sample.wardrobe =
    mkServed
      (Responded
         (mkResponse 500
            (Error "Cannot read properties of undefined (reading 'path')")))
      Sample.wardrobe [].
Proof.
  intros e h.
  exact (create_item_without_image Sample.cfg e h Sample.wardrobe "u1"
           eq_refl eq_refl eq_refl).
Defined.

Lemma create_item_seasons_witness :
  let e := Sample.env_at 5000 "i4" in
  let tok := Sample.token_for "u1" 0 in
  let h :=
    Sample.creation tok "Hat" "accessories" Sample.summer_fall "3"
      (Some "hat.png") in
  let broken :=
    Sample.creation tok "Hat" "accessories" "[summer" "3" (Some "hat.png") in
  (exists it,
      serve Sample.cfg e h Sample.wardrobe =
        mkServed (Responded (mkResponse 200 (OneItem it)))
          (mkDb (users Sample.wardrobe) (items Sample.wardrobe ++ [it]))
          [Item_save_call "u1"] /\
      userId it = "u1" /\ seasons it = ["summer"; "fall"]) /\
  serve Sample.cfg e broken Sample.wardrobe =
    mkServed (Responded (mkResponse 500 (Error "Unexpected token in JSON")))
      Sample.wardrobe [].
Proof.
  intros e tok h broken.
  assert (Hh : requester Sample.cfg e h = Some "u1") by reflexivity.
  assert (Hbroken : requester Sample.cfg e broken = Some "u1") by reflexivity.
  split.
  - destruct (create_item_seasons Sample.cfg e h Sample.wardrobe "u1" "hat.png"
                "https://media.example/hat.png" eq_refl Hh eq_refl eq_refl)
      as (_ & Harray & _ & _).
    apply (Harray Sample.summer_fall ["summer"; "fall"]);
      try reflexivity.
    + discriminate.
    + exact reference_cast_contract.
  - destruct (create_item_seasons Sample.cfg e broken Sample.wardrobe "u1"
                "hat.png" "https://media.example/hat.png"
                eq_refl Hbroken eq_refl eq_refl)
      as (_ & _ & _ & Hthrows).
    apply (Hthrows "[summer" "Unexpected token in JSON"); try reflexivity.
    discriminate.
Defined.

(** ** Listing *)

Lemma listing_isolation_witness :
  let e := Sample.env_at 5000 "x" in
  let h := Sample.listing (Sample.token_for "u1" 0) in
  let d' := serve_all Sample.cfg Sample.interleaved Sample.two_users in
  result_of (serve Sample.cfg e h d') =
    Responded (mkResponse 200 (Items (items_of "u1" d'))) /\
  (forall it,
      In it (items_of "u1" d') -> userId it = "u1" /\ userId it <> "u2") /\
  (forall eh it,
      In eh Sample.interleaved ->
      requester Sample.cfg (fst eh) (snd eh) = Some "u2" ->
      In it (created Sample.cfg eh) -> ~ In it (items_of "u1" d')) /\
  result_of (serve Sample.cfg e h d') =
    result_of
      (serve Sample.cfg e h
         (serve_all Sample.cfg
            (filter (requested_by Sample.cfg "u1") Sample.interleaved)
            Sample.two_users)).
Proof.
  intros e h d'.
  assert (Hdistinct : "u1"%string <> "u2"%string) by discriminate.
  exact (listing_isolation Sample.cfg "u1" "u2" Sample.interleaved
           Sample.two_users e h Hdistinct eq_refl eq_refl eq_refl).
Defined.

(** ** Failures *)

Lemma failures_caught_by_handlers_witness :
  let e := Sample.env_down 5000 "u3" in
  let h := Sample.registration "Cy" "Dee" "cy@example.org" "s3same" in
  let r := incoming (Sample.creation "" "Hat" "accessories" "" "3" None) in
  let s := mkState Sample.wardrobe [] [] in
  (exists resp,
      result_of (serve Sample.cfg e h Sample.two_users) = Responded resp) /\
  result_of (serve Sample.cfg e h Sample.two_users) =
    Responded (mkResponse 500 (Error "connection refused")) /\
  create_item e r s =
    (Ok (mkResponse 500
           (Error "Cannot read properties of undefined (reading 'id')")),
     s).
Proof.
  intros e h r s.
  destruct (failures_caught_by_handlers Sample.cfg) as (Hroutes & Hbodies).
  destruct (Hroutes e h Sample.two_users eq_refl)
    as (Hanswered & Hrejected & _).
  destruct (Hbodies e r s s (TypeError "id")) as (_ & _ & Hcreate & _).
  split; [exact Hanswered |]. split.
  - exact (Hrejected "connection refused" eq_refl).
  - exact (Hcreate eq_refl).
Defined.

(** With the store down, the listing sends nothing: the promise of its
    handler rejects; and the dashboard sends its fixed text, not the message
    of the error. *)
Lemma failures_not_all_caught :
  result_of
    (serve Sample.cfg (Sample.env_down 5000 "x")
       (Sample.listing (Sample.token_for "u1" 0)) Sample.wardrobe) =
    Unhandled (StoreError "connection refused") /\
  result_of
    (serve Sample.cfg (Sample.env_down 5000 "x")
       (Sample.dashboard (Sample.token_for "u1" 0)) Sample.wardrobe) =
    Responded (mkResponse 500 (Msg "Server Error")) /\
  message (StoreError "connection refused") = "connection refused".
Proof.
  repeat split; reflexivity.
Qed.

(** * The further properties on the reference instance *)

Lemma put_pos_append (p : positive) (rest s : string) :
  (put_pos p rest ++ s)%string = put_pos p (rest ++ s).
Proof. induction p as [p IH | p IH |]; simpl; try rewrite IH; reflexivity. Qed.

Lemma put_Z_append (z : Z) (rest s : string) :
  (put_Z z rest ++ s)%string = put_Z z (rest ++ s).
Proof. destruct z; simpl; try rewrite put_pos_append; reflexivity. Qed.

Lemma salt_of_hash (pw entropy : string) (rounds : nat) :
  salt_of (hash pw (genSalt rounds entropy)) = Some (genSalt rounds entropy).
Proof.
  unfold salt_of, hash, genSalt.
  rewrite !put_Z_append, !get_put_Z, !Nat2Z.id, split_at_append.
  reflexivity.
Qed.

(** The reference hashes meet the contract. *)
Lemma reference_bcrypt_contract : bcrypt_contract.
Proof.
  intros pw rounds entropy. simpl. unfold compare.
  rewrite salt_of_hash. apply String.eqb_refl.
Qed.

Lemma cy_registers :
  registers (Sample.env_at 5000 "u3") Scenario.cy Sample.two_users.
Proof.
  repeat split; try reflexivity. apply String.eqb_neq. reflexivity.
Defined.

Lemma hat_creates :
  creates Sample.cfg (Sample.env_at 5000 "i4") Scenario.hat "u1"
    Scenario.hat_item.
Proof.
  repeat split; try reflexivity.
  exists "hat.png", "https://media.example/hat.png",
    (JArray [JString "summer"; JString "fall"]), ["summer"; "fall"].
  repeat split; reflexivity.
Defined.

(** ** Login *)

Lemma login_unknown_email_witness :
  serve Sample.cfg (Sample.env_at 5000 "x")
    (Scenario.login "eve@example.org" "guess") Sample.two_users =
    mkServed (Responded (mkResponse 400 (Msg "User does not exist")))
      Sample.two_users [User_findOne_call (Some "eve@example.org")].
Proof.
  exact (login_unknown_email Sample.cfg (Sample.env_at 5000 "x")
           (Scenario.login "eve@example.org" "guess") Sample.two_users
           "eve@example.org" eq_refl eq_refl eq_refl eq_refl).
Defined.

Lemma login_wrong_password_witness :
  serve Sample.cfg (Sample.env_at 5000 "x")
    (Scenario.login "ada@example.org" "guess") Sample.two_users =
    mkServed (Responded (mkResponse 400 (Msg "Invalid credentials")))
      Sample.two_users [User_findOne_call (Some "ada@example.org")].
Proof.
  exact (login_wrong_password Sample.cfg (Sample.env_at 5000 "x")
           (Scenario.login "ada@example.org" "guess") Sample.two_users
           "ada@example.org" "guess" Sample.ada
           eq_refl eq_refl eq_refl eq_refl eq_refl eq_refl).
Defined.

Lemma login_after_register_witness :
  let d' :=
    db_after (serve Sample.cfg (Sample.env_at 5000 "u3") Scenario.cy
                Sample.two_users) in
  serve Sample.cfg (Sample.env_at 9000 "x")
    (Scenario.login "cy@example.org" "s3same") d' =
    mkServed (Responded (mkResponse 200 (Token (Sample.token_for "u3" 9)))) d'
      [User_findOne_call (Some "cy@example.org")].
Proof.
  exact (login_after_register Sample.cfg (Sample.env_at 5000 "u3")
           (Sample.env_at 9000 "x") Scenario.cy
           (Scenario.login "cy@example.org" "s3same") Sample.two_users
           reference_bcrypt_contract cy_registers
           eq_refl eq_refl eq_refl eq_refl).
Defined.

Lemma register_twice_witness :
  let d' :=
    db_after (serve Sample.cfg (Sample.env_at 5000 "u3") Scenario.cy
                Sample.two_users) in
  serve Sample.cfg (Sample.env_at 9000 "u4")
    (Sample.registration "Cyd" "Doe" "cy@example.org" "other") d' =
    mkServed (Responded (mkResponse 400 (Msg "User already exists"))) d'
      [User_findOne_call (Some "cy@example.org")].
Proof.
  exact (register_twice Sample.cfg (Sample.env_at 5000 "u3")
           (Sample.env_at 9000 "u4") Scenario.cy
           (Sample.registration "Cyd" "Doe" "cy@example.org" "other")
           Sample.two_users cy_registers eq_refl eq_refl eq_refl eq_refl).
Defined.

(** ** What the store holds *)

Lemma two_users_emails_unique : emails_unique Sample.two_users.
Proof.
  unfold emails_unique. simpl.
  constructor; [simpl; intros [Heq | []]; discriminate |].
  constructor; [simpl; tauto | constructor].
Defined.

Lemma emails_stay_unique_witness :
  emails_unique
    (serve_all Sample.cfg
       [ (Sample.env_at 5000 "u3", Scenario.cy);
         (Sample.env_at 6000 "u4", Scenario.cy);
         (Sample.env_at 7000 "u5",
          Sample.registration "Ada" "Byron" "ada@example.org" "engine") ]
       Sample.two_users).
Proof.
  exact (emails_stay_unique Sample.cfg _ Sample.two_users
           two_users_emails_unique).
Defined.

Lemma store_only_grows_witness :
  users
    (db_after
       (serve Sample.cfg (Sample.env_at 5000 "x")
          (Scenario.login "ada@example.org" "analytical") Sample.wardrobe)) =
    users Sample.wardrobe /\
  items
    (db_after
       (serve Sample.cfg (Sample.env_at 5000 "u3") Scenario.cy
          Sample.wardrobe)) =
    items Sample.wardrobe /\
  exists us its,
    users (serve_all Sample.cfg Sample.interleaved Sample.two_users) =
      users Sample.two_users ++ us /\
    items (serve_all Sample.cfg Sample.interleaved Sample.two_users) =
      items Sample.two_users ++ its.
Proof.
  destruct (store_only_grows Sample.cfg) as [Hone Hall].
  split; [| split].
  - apply (proj1 (Hone _ _ _)). discriminate.
  - apply (proj2 (Hone _ _ _)). discriminate.
  - exact (Hall Sample.interleaved Sample.two_users).
Defined.

Lemma items_stay_well_formed_witness :
  Forall item_well_formed
    (items (serve_all Sample.cfg Sample.interleaved Sample.two_users)).
Proof.
  exact (items_stay_well_formed Sample.cfg Sample.interleaved Sample.two_users
           (Forall_nil _)).
Defined.

Lemma dashboard_never_dirty_witness :
  result_of
    (serve Sample.cfg (Sample.env_at 5000 "x")
       (Sample.dashboard (Sample.token_for "u1" 0))
       (serve_all Sample.cfg Sample.interleaved Sample.two_users)) =
    Responded (mkResponse 200 (Stats "Ada Lovelace" 2 0 false)).
Proof.
  exact (dashboard_never_dirty Sample.cfg Sample.interleaved Sample.two_users
           (Sample.env_at 5000 "x")
           (Sample.dashboard (Sample.token_for "u1" 0)) "u1" Sample.ada
           (Forall_nil _) eq_refl eq_refl eq_refl eq_refl).
Defined.

(** ** Items, once created *)

Lemma list_after_create_witness :
  result_of
    (serve Sample.cfg (Sample.env_at 9000 "x")
       (Sample.listing (Sample.token_for "u1" 0))
       (db_after
          (serve Sample.cfg (Sample.env_at 5000 "i4") Scenario.hat
             Sample.wardrobe))) =
    Responded
      (mkResponse 200
         (Items [Sample.coat; Sample.shirt; Scenario.hat_item])).
Proof.
  exact (list_after_create Sample.cfg (Sample.env_at 5000 "i4")
           (Sample.env_at 9000 "x") Scenario.hat
           (Sample.listing (Sample.token_for "u1" 0)) Sample.wardrobe "u1"
           Scenario.hat_item hat_creates eq_refl eq_refl eq_refl).
Defined.

Lemma dashboard_after_create_witness :
  result_of
    (serve Sample.cfg (Sample.env_at 9000 "x")
       (Sample.dashboard (Sample.token_for "u1" 0))
       (db_after
          (serve Sample.cfg (Sample.env_at 5000 "i4") Scenario.hat
             Sample.wardrobe))) =
    Responded (mkResponse 200 (Stats "Ada Lovelace" 3 1 false)).
Proof.
  exact (dashboard_after_create Sample.cfg (Sample.env_at 5000 "i4")
           (Sample.env_at 9000 "x") Scenario.hat
           (Sample.dashboard (Sample.token_for "u1" 0)) Sample.wardrobe "u1"
           Scenario.hat_item Sample.ada hat_creates
           eq_refl eq_refl eq_refl eq_refl).
Defined.

Lemma dashboard_unknown_user_witness :
  serve Sample.cfg (Sample.env_at 5000 "x")
    (Sample.dashboard (Sample.token_for "u9" 0)) Sample.wardrobe =
    mkServed (Responded (mkResponse 500 (Msg "Server Error"))) Sample.wardrobe
      [User_findById_call "u9"; Item_countDocuments_call "u9" false;
       Item_countDocuments_call "u9" true].
Proof.
  exact (dashboard_unknown_user Sample.cfg (Sample.env_at 5000 "x")
           (Sample.dashboard (Sample.token_for "u9" 0)) Sample.wardrobe "u9"
           eq_refl eq_refl eq_refl eq_refl).
Defined.

Lemma create_item_invalid_witness :
  serve Sample.cfg (Sample.env_at 5000 "i4")
    (Sample.creation (Sample.token_for "u1" 0) "" "accessories"
       Sample.summer_fall "11" (Some "hat.png"))
    Sample.wardrobe =
    mkServed
      (Responded
         (mkResponse 500 (Error "Item validation failed: name, warmth")))
      Sample.wardrobe [Item_save_call "u1"].
Proof.
  exact (proj2
           (create_item_invalid Sample.cfg (Sample.env_at 5000 "i4")
              (Sample.creation (Sample.token_for "u1" 0) "" "accessories"
                 Sample.summer_fall "11" (Some "hat.png"))
              Sample.wardrobe "u1" "hat.png" "https://media.example/hat.png"
              (JArray [JString "summer"; JString "fall"])
              eq_refl eq_refl eq_refl eq_refl eq_refl eq_refl
              (or_introl eq_refl))).
Defined.

Lemma create_item_upload_failed_witness :
  serve Sample.cfg (Scenario.env_no_media 5000 "i4") Scenario.hat
    Sample.wardrobe =
    mkServed
      (Responded (mkResponse 500 (ErrorPage (UploadError "upload failed"))))
      Sample.wardrobe [].
Proof.
  exact (create_item_upload_failed Sample.cfg (Scenario.env_no_media 5000 "i4")
           Scenario.hat Sample.wardrobe "u1" "hat.png" "upload failed"
           eq_refl eq_refl eq_refl eq_refl).
Defined.

Lemma list_items_rejected_witness :
  serve Sample.cfg (Sample.env_down 5000 "x")
    (Sample.listing (Sample.token_for "u1" 0)) Sample.wardrobe =
    mkServed (Unhandled (StoreError "connection refused")) Sample.wardrobe
      [Item_find_call "u1"].
Proof.
  exact (list_items_rejected Sample.cfg (Sample.env_down 5000 "x")
           (Sample.listing (Sample.token_for "u1" 0)) Sample.wardrobe "u1"
           "connection refused" [] eq_refl eq_refl eq_refl).
Defined.

(** ** Across the routes *)

Lemma dashboard_after_register_witness :
  result_of
    (serve Sample.cfg (Sample.env_at 9000 "x")
       (Sample.dashboard (Sample.token_for "u3" 5))
       (db_after
          (serve Sample.cfg (Sample.env_at 5000 "u3") Scenario.cy
             Sample.wardrobe))) =
    Responded (mkResponse 200 (Stats "Cy Dee" 0 0 true)).
Proof.
  assert (Hreg : registers (Sample.env_at 5000 "u3") Scenario.cy
                   Sample.wardrobe).
  { repeat split; try reflexivity. apply String.eqb_neq. reflexivity. }
  assert (Hclock : clock_s (Sample.env_at 5000 "u3")
                   <= clock_s (Sample.env_at 9000 "x")
                   < clock_s (Sample.env_at 5000 "u3") + expiresIn_30d).
  { change (5 <= 9 < 5 + 2592000). lia. }
  exact (dashboard_after_register Sample.cfg (Sample.env_at 5000 "u3")
           (Sample.env_at 9000 "x") Scenario.cy
           (Sample.dashboard (Sample.token_for "u3" 5)) Sample.wardrobe
           reference_jwt_contract Hreg eq_refl eq_refl eq_refl eq_refl
           Hclock eq_refl).
Defined.

Lemma unprotected_ignore_token_witness :
  serve Sample.cfg (Sample.env_at 5000 "u3")
    (with_token (Some "not.a.token") Scenario.cy) Sample.two_users =
  serve Sample.cfg (Sample.env_at 5000 "u3") Scenario.cy Sample.two_users.
Proof.
  exact (unprotected_ignore_token Sample.cfg (Sample.env_at 5000 "u3")
           Scenario.cy Sample.two_users (Some "not.a.token") eq_refl).
Defined.

Lemma register_empty_field_witness :
  serve Sample.cfg (Sample.env_at 5000 "u3")
    (Sample.registration "Cy" "Dee" "cy@example.org" "") Sample.two_users =
    mkServed (Responded (mkResponse 400 (Msg "Please enter all fields")))
      Sample.two_users [].
Proof.
  exact (register_empty_field Sample.cfg (Sample.env_at 5000 "u3")
           (Sample.registration "Cy" "Dee" "cy@example.org" "")
           Sample.two_users eq_refl
           (or_intror (or_intror (or_intror eq_refl)))).
Defined.

Lemma login_without_email_witness :
  serve Sample.cfg (Sample.env_at 5000 "x")
    (mkHttp POST_api_auth_login None [("password", "analytical")] None)
    Sample.two_users =
    mkServed (Responded (mkResponse 400 (Msg "User does not exist")))
      Sample.two_users [User_findOne_call None].
Proof.
  exact (login_without_email Sample.cfg (Sample.env_at 5000 "x")
           (mkHttp POST_api_auth_login None [("password", "analytical")] None)
           Sample.two_users eq_refl eq_refl eq_refl eq_refl).
Defined.

Lemma login_without_body_witness :
  serve Sample.cfg (Sample.env_at 5000 "x")
    (Http POST_api_auth_login None None None) Sample.two_users =
    mkServed
      (Responded
         (mkResponse 500
            (Error
               ("Cannot destructure property 'email' of 'req.body' "
                ++ "as it is undefined."))))
      Sample.two_users [].
Proof.
  exact (login_without_body Sample.cfg (Sample.env_at 5000 "x")
           (Http POST_api_auth_login None None None) Sample.two_users
           eq_refl eq_refl).
Defined.
